(** * tabular_data_analyst: outlier scoring, cell edits and the insight request

    A shallow embedding of [src/utils/stats.ts], of the cell-edit commit of the
    data editor and the insight request of the dashboard
    ([src/components/AnalysisDashboard.tsx]) and of
    [src/services/geminiService.ts].

    Numbers are the runtime's IEEE 754 binary64 values, carried by the
    primitive type [float]; a row is an object used as a map from column
    name to cell, carried by [gmap string value], with the members it
    inherits from [Object.prototype] where its text is read.  A call that
    can throw ends in a [completion]; the awaited call of the insight
    service is an event of the function that makes it. *)

From Stdlib Require Import ZArith List String Ascii Bool Lia Floats Sorted.
From stdpp Require Import gmap strings list.

Local Open Scope Z_scope.

(** ** The runtime's built-in operations *)

Module JS.

(** The cells of a [DataRow]: [string | number | boolean | null].  The cell
    a row holds at a key is a lookup; [None] is a key the row does not hold. *)
Inductive value : Type :=
  | VNull
  | VBool (b : bool)
  | VNum (n : float)
  | VStr (s : string).

Definition is_number (v : option value) : bool :=
  match v with Some (VNum _) => true | _ => false end.

Definition is_boolean (v : option value) : bool :=
  match v with Some (VBool _) => true | _ => false end.

(** [isNaN] on a number. *)
Definition isNaN (x : float) : bool := PrimFloat.is_nan x.

(** An array length as a number (lengths stay below 2^32). *)
Definition of_length (n : nat) : float :=
  PrimFloat.of_uint63 (Uint63.of_Z (Z.of_nat n)).

(** *** StringToNumber

    Texts are sequences of code units below 256.  The grammar is
    StringNumericLiteral: optional white space around nothing (the value
    +0), a signed decimal literal, [Infinity], or an unsigned binary, octal
    or hexadecimal integer; anything else is NaN.  The mathematical value is
    rounded to the nearest binary64 number, ties to even. *)

Definition code (c : ascii) : Z := Z.of_nat (nat_of_ascii c).

Definition isStrWhiteSpaceChar (c : ascii) : bool :=
  let n := code c in
  ((9 <=? n) && (n <=? 13)) || (n =? 32) || (n =? 160).

Fixpoint dropWhile {A} (p : A -> bool) (l : list A) : list A :=
  match l with
  | [] => []
  | x :: l' => if p x then dropWhile p l' else l
  end.

Definition trimWhiteSpace (l : list ascii) : list ascii :=
  rev (dropWhile isStrWhiteSpaceChar (rev (dropWhile isStrWhiteSpaceChar l))).

Definition digitOfBase (base : Z) (c : ascii) : option Z :=
  let n := code c in
  let d :=
    if (48 <=? n) && (n <=? 57) then n - 48
    else if (97 <=? n) && (n <=? 102) then n - 87
    else if (65 <=? n) && (n <=? 70) then n - 55
    else 16 in
  if d <? base then Some d else None.

(** The longest prefix of digits: its value continuing [acc], the number of
    digits read, and the rest of the text. *)
Fixpoint takeDigits (base : Z) (l : list ascii) (acc : Z) (cnt : nat)
  : Z * nat * list ascii :=
  match l with
  | [] => (acc, cnt, [])
  | c :: l' =>
      match digitOfBase base c with
      | Some d => takeDigits base l' (base * acc + d) (S cnt)
      | None => (acc, cnt, l)
      end
  end.

(** 𝔽(± m · 10^e) for [m >= 0]. *)
Definition roundDecimal (neg : bool) (m e : Z) : spec_float :=
  match m with
  | Zpos p =>
      if 0 <=? e then binary_round prec emax neg (Z.to_pos (m * 10 ^ e)) 0
      else
        let '(q, e', l) := SFdiv_core_binary prec emax m 0 (10 ^ (- e)) 0 in
        binary_round_aux prec emax neg q e' l
  | _ => S754_zero neg
  end.

Definition asciis (s : string) : list ascii := list_ascii_of_string s.

Definition NaN_SF : spec_float := S754_nan.

Definition parseExponent (l : list ascii) : option (Z * list ascii) :=
  match l with
  | c :: l' =>
      if (code c =? 101) || (code c =? 69) then
        let '(neg, l'') :=
          match l' with
          | s :: r => if code s =? 43 then (false, r)
                      else if code s =? 45 then (true, r) else (false, l')
          | [] => (false, l')
          end in
        let '(ev, n, rest) := takeDigits 10 l'' 0 0%nat in
        match n with
        | O => None
        | _ => Some (if neg then - ev else ev, rest)
        end
      else Some (0, l)
  | [] => Some (0, l)
  end.

Definition parseUnsignedDecimal (neg : bool) (l : list ascii) : spec_float :=
  if decide (l = asciis "Infinity") then S754_infinity neg
  else
    let '(ip, ni, rest1) := takeDigits 10 l 0 0%nat in
    let '(m, nf, rest2) :=
      match rest1 with
      | c :: r => if code c =? 46 then takeDigits 10 r ip 0%nat
                  else (ip, 0%nat, rest1)
      | [] => (ip, 0%nat, rest1)
      end in
    match (ni + nf)%nat with
    | O => NaN_SF
    | _ =>
        match parseExponent rest2 with
        | Some (ev, []) => roundDecimal neg m (ev - Z.of_nat nf)
        | _ => NaN_SF
        end
    end.

Definition parseNonDecimal (l : list ascii) : option spec_float :=
  match l with
  | z :: b :: ds =>
      let base :=
        if (code b =? 120) || (code b =? 88) then 16
        else if (code b =? 111) || (code b =? 79) then 8
        else if (code b =? 98) || (code b =? 66) then 2
        else 0 in
      if (code z =? 48) && (0 <? base) then
        Some match takeDigits base ds 0 0%nat with
             | (_, O, _) => NaN_SF
             | (v, _, []) => roundDecimal false v 0
             | _ => NaN_SF
             end
      else None
  | _ => None
  end.

Definition StringToNumber (s : string) : float :=
  let l := trimWhiteSpace (asciis s) in
  SF2Prim
    match l with
    | [] => S754_zero false
    | c :: r =>
        match parseNonDecimal l with
        | Some v => v
        | None =>
            if code c =? 43 then parseUnsignedDecimal false r
            else if code c =? 45 then parseUnsignedDecimal true r
            else parseUnsignedDecimal false l
        end
    end.

(** [String.prototype.toLowerCase] on code units below 256. *)
Definition lowerChar (c : ascii) : ascii :=
  let n := code c in
  if ((65 <=? n) && (n <=? 90))
     || ((192 <=? n) && (n <=? 222) && negb (n =? 215))
  then ascii_of_nat (Z.to_nat (n + 32))
  else c.

Definition toLowerCase (s : string) : string :=
  string_of_list_ascii (List.map lowerChar (asciis s)).

Fixpoint startsWith (p l : list ascii) : bool :=
  match p, l with
  | [], _ => true
  | a :: p', b :: l' => Ascii.eqb a b && startsWith p' l'
  | _ :: _, [] => false
  end.

Fixpoint includesFrom (l p : list ascii) : bool :=
  startsWith p l
  || match l with
     | [] => false
     | _ :: l' => includesFrom l' p
     end.

(** [s.includes(p)] *)
Definition includes (s p : string) : bool := includesFrom (asciis s) (asciis p).

(** [l.slice(from, to)], with the relative indexing of negative arguments. *)
Definition slice {A} (l : list A) (from to : Z) : list A :=
  let len := Z.of_nat (length l) in
  let k := if from <? 0 then Z.max (len + from) 0 else Z.min from len in
  let final := if to <? 0 then Z.max (len + to) 0 else Z.min to len in
  firstn (Z.to_nat (final - k)) (skipn (Z.to_nat k) l).

(** [Number(row[key])], from the cell the row holds at [key].  At a key the
    row does not hold, [row[key]] is [undefined] or, for a name of
    [Object.prototype], an inherited function or object: [Number] gives NaN
    for each of them. *)
Definition Number (v : option value) : float :=
  match v with
  | None => nan
  | Some VNull => 0%float
  | Some (VBool b) => if b then 1%float else 0%float
  | Some (VNum n) => n
  | Some (VStr s) => StringToNumber s
  end.

(** *** Property reads

    A row is a plain object: what [row[key]] evaluates to is the cell the row
    holds at [key] or, at a key it does not hold, the member of that name of
    [Object.prototype] when there is one, and [undefined] otherwise. *)
Inductive Read : Type :=
  | Own (cell : value)
  | Inherited (member : string)
  | Undefined.

(** The property names of [Object.prototype]. *)
Definition prototypeMembers : list string :=
  [ "constructor"; "hasOwnProperty"; "isPrototypeOf"; "propertyIsEnumerable";
    "toLocaleString"; "toString"; "valueOf"; "__proto__";
    "__defineGetter__"; "__defineSetter__";
    "__lookupGetter__"; "__lookupSetter__" ].

(** [row[key]] *)
Definition get (row : gmap string value) (key : string) : Read :=
  match row !! key with
  | Some cell => Own cell
  | None =>
      if existsb (String.eqb key) prototypeMembers then Inherited key
      else Undefined
  end.

(** *** Completions

    How an evaluation ends: with a value, or by throwing (for an awaited
    promise: resolved, or rejected). *)
Inductive completion (A : Type) : Type :=
  | Normal (a : A)
  | Throw (error : string).
Arguments Normal {A} a.
Arguments Throw {A} error.

#[export] Instance completion_bind : MBind completion :=
  fun A B (k : A -> completion B) (c : completion A) =>
    match c with
    | Normal a => k a
    | Throw e => Throw e
    end.

Definition try_catch {A} (body : completion A) (handler : string -> completion A)
  : completion A :=
  match body with
  | Normal a => Normal a
  | Throw e => handler e
  end.

End JS.

(** ** [src/utils/stats.ts] *)

Module Stats.
Import JS.

Abbreviation DataRow := (gmap string value).

(** [Math.pow(v, 2)], taken as the correctly rounded square. *)
Definition pow2 (v : float) : float := (v * v)%float.

(** One step of [Math.min] and of [Math.max]: NaN wins, and -0 is below +0. *)
Definition min2 (lowest number : float) : float :=
  if isNaN lowest || isNaN number then nan
  else if (number <? lowest)%float then number
  else if (number =? 0)%float && (lowest =? 0)%float
          && PrimFloat.get_sign number then number
  else lowest.

Definition max2 (highest number : float) : float :=
  if isNaN highest || isNaN number then nan
  else if (highest <? number)%float then number
  else if (number =? 0)%float && (highest =? 0)%float
          && negb (PrimFloat.get_sign number) then number
  else highest.

(** [Math.min] and [Math.max] as functions of their argument list.  Passing an
    array as that list, [Math.min(...values)], is a call of its own, which an
    engine may refuse: see [StatsCalls.spreadCall]. *)
Definition Math_min (values : list float) : float :=
  fold_left min2 values infinity.

Definition Math_max (values : list float) : float :=
  fold_left max2 values neg_infinity.

Record FieldStats : Type := mkStats
  { mean : float; stdDev : float; min : float; max : float }.

(** [data.map(row => Number(row[key])).filter(val => !isNaN(val))] *)
Definition numericValues (data : list DataRow) (key : string) : list float :=
  List.filter (fun val => negb (isNaN val))
    (List.map (fun row : DataRow => Number (row !! key)) data).

(** The statistics of a non-empty array of values. *)
Definition statsOfValues (values : list float) : FieldStats :=
  let sum := fold_left (fun acc val => (acc + val)%float) values 0%float in
  let mean := (sum / of_length (length values))%float in
  let variance :=
    (fold_left (fun acc val => (acc + pow2 (val - mean))%float) values 0%float
     / of_length (length values))%float in
  let stdDev := PrimFloat.sqrt variance in
  mkStats mean stdDev (Math_min values) (Math_max values).

(** The object [calculateStats] returns, on a call that returns: the two
    spread calls of its last line are taken as accepted by the engine.  The
    call with its two outcomes, returning or throwing, is
    [StatsCalls.calculateStats]. *)
Definition calculateStats (data : list DataRow) (key : string) : FieldStats :=
  let values := numericValues data key in
  if Nat.eqb (length values) 0 then mkStats 0 0 0 0
  else statsOfValues values.

Abbreviation OutlierDataPoint := (gmap string value).

(** The constant 1.4 of the joint test, as the binary64 number it denotes. *)
Definition jointFactor : float := 0x1.6666666666666p+0%float.

Definition zScore (val : float) (st : FieldStats) : float :=
  if negb (isNaN val) && negb (stdDev st =? 0)%float
  then ((val - mean st) / stdDev st)%float
  else 0%float.

Definition zDistance (zScoreX zScoreY : float) : float :=
  PrimFloat.sqrt (pow2 zScoreX + pow2 zScoreY)%float.

(** The test of the [if] in the loop body; [a > b] is [b <? a]. *)
Definition flagged (zScoreX zScoreY threshold : float) : bool :=
  (threshold <? abs zScoreX)%float
  || (threshold <? abs zScoreY)%float
  || (threshold * jointFactor <? zDistance zScoreX zScoreY)%float.

Record Result : Type := mkResult
  { processedData : list OutlierDataPoint; outlierIndices : list nat }.

(** The body of [data.forEach((row, index) => ...)], on the two arrays it
    pushes to. *)
Definition visit (xStats yStats : FieldStats) (xKey yKey : string)
    (threshold : float) (acc : Result) (index : nat) (row : DataRow) : Result :=
  let xVal := Number (row !! xKey) in
  let yVal := Number (row !! yKey) in
  let zScoreX := zScore xVal xStats in
  let zScoreY := zScore yVal yStats in
  let isOutlier := flagged zScoreX zScoreY threshold in
  let outlierIndices' :=
    if isOutlier then outlierIndices acc ++ [index] else outlierIndices acc in
  let point : OutlierDataPoint :=
    <[yKey := VNum yVal]>
      (<[xKey := VNum xVal]>
        (<["zScoreY" := VNum zScoreY]>
          (<["zScoreX" := VNum zScoreX]>
            (<["isOutlier" := VBool isOutlier]> row)))) in
  mkResult (processedData acc ++ [point]) outlierIndices'.

Fixpoint forEach {A St : Type} (f : St -> nat -> A -> St) (l : list A)
    (index : nat) (s : St) : St :=
  match l with
  | [] => s
  | x :: l' => forEach f l' (S index) (f s index x)
  end.

(** The object [detectOutliers] returns, on a call that returns (as for
    [calculateStats]); the call itself is [StatsCalls.detectOutliers]. *)
Definition detectOutliers (data : list DataRow) (xKey yKey : string)
    (threshold : float) : Result :=
  let xStats := calculateStats data xKey in
  let yStats := calculateStats data yKey in
  forEach (visit xStats yStats xKey yKey threshold) data 0%nat
    (mkResult [] []).

(** The default of the [threshold] parameter. *)
Definition defaultThreshold : float := 2.5%float.

End Stats.

(** ** [src/utils/stats.ts], as calls that return or throw

    [Math.min(...values)] passes every element of [values] as an argument of
    one call.  An engine accepts only so many arguments (the bound depends on
    the engine, and on the stack left at the call) and throws a [RangeError]
    beyond it: on a long column [calculateStats] throws, and so does
    [detectOutliers], which calls it before its loop. *)

Module StatsCalls.
Import JS Stats.

Section Engine.

(** Whether the engine accepts a call with that many arguments. *)
Variable acceptsArguments : nat -> bool.

(** [f(...values)] *)
Definition spreadCall {A} (f : list float -> A) (values : list float)
  : completion A :=
  if acceptsArguments (length values) then Normal (f values)
  else Throw "RangeError".

Definition calculateStats (data : list DataRow) (key : string)
  : completion FieldStats :=
  let values := numericValues data key in
  if Nat.eqb (length values) 0 then Normal (mkStats 0 0 0 0)
  else
    let sum := fold_left (fun acc val => (acc + val)%float) values 0%float in
    let mean := (sum / of_length (length values))%float in
    let variance :=
      (fold_left (fun acc val => (acc + pow2 (val - mean))%float) values
         0%float
       / of_length (length values))%float in
    let stdDev := PrimFloat.sqrt variance in
    min ← spreadCall Math_min values;
    max ← spreadCall Math_max values;
    Normal (mkStats mean stdDev min max).

Definition detectOutliers (data : list DataRow) (xKey yKey : string)
    (threshold : float) : completion Result :=
  xStats ← calculateStats data xKey;
  yStats ← calculateStats data yKey;
  Normal (forEach (visit xStats yStats xKey yKey threshold) data 0%nat
            (mkResult [] [])).

End Engine.

(** An engine that accepts calls of up to [limit] arguments. *)
Definition upTo (limit : Z) (n : nat) : bool := Z.of_nat n <=? limit.

End StatsCalls.

(** ** The data editor of [src/components/AnalysisDashboard.tsx] *)

Module DataEditor.
Import JS.

(** A row object: the identity the runtime gives it, and its cells.  Two
    references are the same object ([===]) when their [oid] agree. *)
Record RowObject : Type := mkRow { oid : nat; fields : gmap string value }.

Definition ROWS_PER_PAGE : Z := 10.

(** The state of the component: the [columns] prop and its state hooks. *)
Record State : Type := mkState
  { columns : list string;
    currentPage : Z;
    searchTerm : string;
    editingCell : option (nat * string);
    editValue : string;
    localData : list RowObject }.

Section Editor.

(** The runtime's conversion of a number to text, and the text it gives for
    a member of [Object.prototype]: the source text of a built-in function
    (such as [function toString() { [native code] }], its white space left to
    the engine) and, for [__proto__], the text of the prototype object. *)
Variable NumberToString : float -> string.
Variable MemberToString : string -> string.

(** [String(v)], for [v] read from a row. *)
Definition String_ (v : Read) : string :=
  match v with
  | Undefined => "undefined"
  | Inherited member => MemberToString member
  | Own VNull => "null"
  | Own (VBool b) => if b then "true" else "false"
  | Own (VNum n) => NumberToString n
  | Own (VStr s) => s
  end.

Definition filteredData (st : State) : list RowObject :=
  List.filter
    (fun row =>
       existsb
         (fun col =>
            includes (toLowerCase (String_ (get (fields row) col)))
                     (toLowerCase (searchTerm st)))
         (columns st))
    (localData st).

Definition startIndex (st : State) : Z := (currentPage st - 1) * ROWS_PER_PAGE.

Definition currentData (st : State) : list RowObject :=
  slice (filteredData st) (startIndex st) (startIndex st + ROWS_PER_PAGE).

(** [localData.indexOf(row)]: the first position holding the same object. *)
Fixpoint indexOf (l : list RowObject) (row : RowObject) : option nat :=
  match l with
  | [] => None
  | r :: l' =>
      if Nat.eqb (oid r) (oid row) then Some 0%nat
      else option_map S (indexOf l' row)
  end.

(** An identity no object of [l] has. *)
Definition freshOid (l : list RowObject) : nat :=
  S (fold_right (fun r m => Nat.max (oid r) m) 0%nat l).

(** The value [saveEdit] stores, from the original cell and the edit text.
    The original is tested by its [typeof] only, which is neither [number]
    nor [boolean] for [undefined] and for an inherited function or object:
    what counts is the cell the row holds, if any. *)
Definition finalValue (originalValue : option value) (editValue : string)
  : value :=
  if is_number originalValue && negb (isNaN (StringToNumber editValue))
  then VNum (StringToNumber editValue)
  else if is_boolean originalValue
  then VBool (bool_decide (toLowerCase editValue = "true"))
  else VStr editValue.

(** [saveEdit]: the next state, and the argument of the [onUpdateData] call
    when it is made. *)
Definition saveEdit (st : State) : State * option (list RowObject) :=
  match editingCell st with
  | None => (st, None)
  | Some (rowIndex, colKey) =>
      match currentData st !! rowIndex ≫= indexOf (localData st) with
      | None => (st, None)
      | Some globalIndex =>
          match localData st !! globalIndex with
          | None => (st, None)
          | Some target =>
              let originalValue := fields target !! colKey in
              let row' :=
                mkRow (freshOid (localData st))
                      (<[colKey := finalValue originalValue (editValue st)]>
                         (fields target)) in
              let newData := <[globalIndex := row']> (localData st) in
              (mkState (columns st) (currentPage st) (searchTerm st) None
                       (editValue st) newData,
               Some newData)
          end
      end
  end.

(** [totalPages]: [Math.ceil(filteredData.length / ROWS_PER_PAGE)], on the
    integers. *)
Definition totalPages (st : State) : Z :=
  (Z.of_nat (length (filteredData st)) + ROWS_PER_PAGE - 1) / ROWS_PER_PAGE.

(** [handlePageChange] *)
Definition handlePageChange (st : State) (newPage : Z) : State :=
  if (1 <=? newPage) && (newPage <=? totalPages st)
  then mkState (columns st) newPage (searchTerm st) None (editValue st)
               (localData st)
  else st.

(** [startEdit] *)
Definition startEdit (st : State) (rowIndex : nat) (colKey : string)
    (value : Read) : State :=
  mkState (columns st) (currentPage st) (searchTerm st)
          (Some (rowIndex, colKey)) (String_ value) (localData st).

(** The [onClick] of the cell of column [col] in the row shown at [rIndex]:
    [!isEditing && startEdit(rIndex, col, row[col])]. *)
Definition clickCell (st : State) (rIndex : nat) (col : string) : State :=
  match currentData st !! rIndex with
  | None => st
  | Some row =>
      if bool_decide (editingCell st = Some (rIndex, col)) then st
      else startEdit st rIndex col (get (fields row) col)
  end.

(** The [onChange] of the search box. *)
Definition changeSearch (st : State) (term : string) : State :=
  mkState (columns st) 1 term (editingCell st) (editValue st) (localData st).

(** The page of the [i]-th numbered button of the footer. *)
Definition pageButton (st : State) (i : Z) : Z :=
  let p := i + 1 in
  let p :=
    if 5 <? totalPages st then
      let p := if 3 <? currentPage st then currentPage st - 3 + i else p in
      if totalPages st <? p then totalPages st - (4 - i) else p
    else p in
  if p <? 1 then i + 1 else p.

(** The numbered buttons: [Array.from({ length: Math.min(5, totalPages) },
    ...)]. *)
Definition pageButtons (st : State) : list Z :=
  List.map (fun i : nat => pageButton st (Z.of_nat i))
    (seq 0 (Z.to_nat (Z.min 5 (totalPages st)))).

End Editor.

End DataEditor.

(** ** [src/services/geminiService.ts] *)

Module Gemini.
Import JS.

(** The values [JSON.parse] produces. *)
#[local] Unset Elimination Schemes.
Inductive json : Type :=
  | JNull
  | JBool (b : bool)
  | JNum (n : float)
  | JStr (s : string)
  | JArr (items : list json)
  | JObj (members : list (string * json)).
#[local] Set Elimination Schemes.

(** The pieces the prompt is built from, in place of its text. *)
Record Prompt : Type := mkPrompt
  { promptColumns : list string;
    promptX : string;
    promptY : string;
    normalSample : list (gmap string value);
    outliers : list (option (gmap string value)) }.

Record Response : Type := mkResponse { text : option string }.

(** [!apiKey], [!result]: an undefined or empty text. *)
Definition falsy (s : option string) : bool :=
  match s with
  | None => true
  | Some t => String.eqb t ""
  end.

(** [l.filter((_, i) => keep i)] from position [i]. *)
Fixpoint filterIndex {A} (keep : nat -> bool) (i : nat) (l : list A) : list A :=
  match l with
  | [] => []
  | x :: l' =>
      if keep i then x :: filterIndex keep (S i) l'
      else filterIndex keep (S i) l'
  end.

Definition missingKeyInsight : json :=
  JObj [ ("summary", JStr "API Key missing. Cannot generate AI insights.");
         ("outlierAnalysis", JStr "Please check your configuration.");
         ("actionableInsights", JArr []) ].

Definition errorInsight : json :=
  JObj [ ("summary", JStr "Failed to generate analysis.");
         ("outlierAnalysis",
          JStr "An error occurred while communicating with the AI model.");
         ("actionableInsights", JArr [JStr "Try again later."]) ].

(** An async function around one awaited call of the collaborator: it
    completes at once, or it sends a prompt to [generateContent], is
    suspended, and completes from the outcome of that call. *)
Inductive Async (A : Type) : Type :=
  | Done (outcome : completion A)
  | Await (prompt : Prompt) (resume : completion Response -> completion A).
Arguments Done {A} outcome.
Arguments Await {A} prompt resume.

(** The prompts sent to the collaborator. *)
Definition sent {A} (call : Async A) : list Prompt :=
  match call with
  | Done _ => []
  | Await prompt _ => [prompt]
  end.

(** The promise the caller awaits, against a collaborator given by the
    outcome of its call on each prompt. *)
Definition settle {A} (generateContent : Prompt -> completion Response)
    (call : Async A) : completion A :=
  match call with
  | Done outcome => outcome
  | Await prompt resume => resume (generateContent prompt)
  end.

Section Service.

(** The environment's [API_KEY] and the runtime's [JSON.parse]. *)
Variable apiKey : option string.
Variable JSON_parse : string -> completion json.

Definition analyzeOutliersWithGemini (dataSample : list (gmap string value))
    (columns : list string) (outlierIndices : list nat) (xAxis yAxis : string)
  : Async json :=
  if falsy apiKey then Done (Normal missingKeyInsight)
  else
    let outliers := List.map (fun i : nat => dataSample !! i) outlierIndices in
    let normalSample :=
      slice
        (filterIndex (fun i => negb (existsb (Nat.eqb i) outlierIndices)) 0
           dataSample)
        0 10 in
    let prompt := mkPrompt columns xAxis yAxis normalSample outliers in
    Await prompt
      (fun awaited =>
         try_catch
           (response ← awaited;
            let result := text response in
            if falsy result then Throw "No response from Gemini"
            else JSON_parse (default "" result))
           (fun error => Normal errorInsight)).

End Service.

End Gemini.

(** ** The analysis dashboard of [src/components/AnalysisDashboard.tsx] *)

Module Dashboard.
Import JS Stats.

Record Dataset : Type := mkDataset
  { name : string; columns : list string; data : list DataRow }.

(** The inputs an insight request is issued under. *)
Record Inputs : Type := mkInputs
  { inDataset : Dataset; inX : string; inY : string; inThreshold : float }.

(** A call of [analyzeOutliersWithGemini] that has not completed: the
    arguments it was given, and the inputs of the render that issued it. *)
Record Request : Type := mkRequest
  { reqIndices : list nat; issuedUnder : Inputs }.

Record State : Type := mkState
  { dataset : Dataset;
    xKey : string;
    yKey : string;
    threshold : float;
    analysisResult : option Result;
    aiInsight : option Gemini.json;
    aiLoading : bool;
    inFlight : list Request }.

Definition inputs (st : State) : Inputs :=
  mkInputs (dataset st) (xKey st) (yKey st) (threshold st).

(** [a || b] on texts: an undefined or empty [a] gives [b]. *)
Definition orText (a : option string) (b : string) : string :=
  match a with
  | Some s => if String.eqb s "" then b else s
  | None => b
  end.

Definition numericColumns (d : Dataset) : list string :=
  match data d with
  | [] => []
  | firstRow :: _ =>
      List.filter (fun key => is_number (firstRow !! key)) (columns d)
  end.

Definition includesText (l : list string) (s : string) : bool :=
  existsb (String.eqb s) l.

(** The first effect, run when [numericColumns] changes: repair the
    selected keys. *)
Definition repairKeys (st : State) : State :=
  let cols := numericColumns (dataset st) in
  match cols with
  | [] => st
  | _ :: _ =>
      let x := if includesText cols (xKey st) then xKey st
               else orText (cols !! 0%nat) "" in
      let y := if includesText cols (yKey st) then yKey st
               else orText (cols !! 1%nat) (orText (cols !! 0%nat) "") in
      mkState (dataset st) x y (threshold st) (analysisResult st)
              (aiInsight st) (aiLoading st) (inFlight st)
  end.

(** The second effect, run when the dataset, a key or the threshold changes:
    run the local analysis and reset the insight.  The analysis is the
    object [detectOutliers] returns; a call that throws
    ([StatsCalls.detectOutliers], on a column too long for the engine) ends
    the component, and with it this state machine. *)
Definition runAnalysis (st : State) : State :=
  if negb (String.eqb (xKey st) "") && negb (String.eqb (yKey st) "")
     && negb (Nat.eqb (length (data (dataset st))) 0)
  then
    mkState (dataset st) (xKey st) (yKey st) (threshold st)
            (Some (detectOutliers (data (dataset st)) (xKey st) (yKey st)
                     (threshold st)))
            None (aiLoading st) (inFlight st)
  else st.

(** The effects of a render with a new dataset: the second effect still sees
    the keys of that render; the keys set by the first effect cause another
    render, whose second effect sees them. *)
Definition datasetEffects (st : State) : State :=
  runAnalysis (repairKeys (runAnalysis st)).

(** What happens to the component. *)
Inductive Event : Type :=
  | UpdateDataset (d : Dataset)
  | SetXKey (k : string)
  | SetYKey (k : string)
  | SetThreshold (t : float)
  | ClickGenerate
  | Resolved (request : nat) (result : Gemini.json).

Definition removeAt {A} (i : nat) (l : list A) : list A :=
  firstn i l ++ skipn (S i) l.

Definition step (st : State) (ev : Event) : State :=
  match ev with
  | UpdateDataset d =>
      datasetEffects
        (mkState d (xKey st) (yKey st) (threshold st) (analysisResult st)
                 (aiInsight st) (aiLoading st) (inFlight st))
  | SetXKey k =>
      if String.eqb k (xKey st) then st
      else runAnalysis
             (mkState (dataset st) k (yKey st) (threshold st)
                      (analysisResult st) (aiInsight st) (aiLoading st)
                      (inFlight st))
  | SetYKey k =>
      if String.eqb k (yKey st) then st
      else runAnalysis
             (mkState (dataset st) (xKey st) k (threshold st)
                      (analysisResult st) (aiInsight st) (aiLoading st)
                      (inFlight st))
  | SetThreshold t =>
      if PrimFloat.Leibniz.eqb t (threshold st) then st
      else runAnalysis
             (mkState (dataset st) (xKey st) (yKey st) t
                      (analysisResult st) (aiInsight st) (aiLoading st)
                      (inFlight st))
  | ClickGenerate =>
      (* [handleGeminiAnalysis] up to its [await]; its button is rendered
         while there is no insight, and disabled while [aiLoading] *)
      match aiInsight st, aiLoading st, analysisResult st with
      | None, false, Some result =>
          mkState (dataset st) (xKey st) (yKey st) (threshold st)
                  (analysisResult st) (aiInsight st) true
                  (inFlight st ++ [mkRequest (outlierIndices result) (inputs st)])
      | _, _, _ => st
      end
  | Resolved i result =>
      (* [handleGeminiAnalysis] after its [await] *)
      match inFlight st !! i with
      | Some _ =>
          mkState (dataset st) (xKey st) (yKey st) (threshold st)
                  (analysisResult st) (Some result) false
                  (removeAt i (inFlight st))
      | None => st
      end
  end.

Definition run (st : State) (evs : list Event) : State := fold_left step evs st.

(** The component after its first render and effects. *)
Definition mount (d : Dataset) : State :=
  let cols := numericColumns d in
  datasetEffects
    (mkState d (orText (cols !! 0%nat) "")
             (orText (cols !! 1%nat) (orText (cols !! 0%nat) ""))
             defaultThreshold None None false []).

End Dashboard.

(** ** Facts about the runtime's numbers *)

Module FloatFacts.

Lemma SFcompare_refl (x : spec_float) :
  x <> S754_nan -> SFcompare x x = Some Eq.
Proof.
  destruct x as [s | s | | s m e]; intros Hx; try congruence.
  - reflexivity.
  - now destruct s.
  - unfold SFcompare.
    assert (He : Z.compare e e = Eq) by apply Z.compare_refl.
    assert (Hm : Pos.compare_cont Eq m m = Eq) by apply Pos.compare_refl.
    rewrite He, Hm. now destruct s.
Qed.

(** The runtime has one NaN. *)
Lemma is_nan_eq (x : float) : PrimFloat.is_nan x = true -> x = nan.
Proof.
  unfold PrimFloat.is_nan. rewrite FloatAxioms.eqb_spec. unfold SFeqb. intros H.
  apply Prim2SF_inj. change (Prim2SF nan) with S754_nan.
  destruct (Prim2SF x) as [s | s | | s m e] eqn:E; try reflexivity;
    rewrite SFcompare_refl in H by discriminate; discriminate.
Qed.

End FloatFacts.

(** ** Rounding of the runtime's numbers

    The shifts of [binary_round_aux] read as a division by a power of two
    followed by a rounding to nearest, ties to even; from there, that
    rounding is monotone. *)

Module Rounding.

(** Where the discarded remainder [r] of a division by [2^k] lies. *)
Definition locationOf (r k : Z) : location :=
  if r =? 0 then loc_Exact else loc_Inexact (Z.compare (2 * r) (2 ^ k)).

(** Round to nearest, ties to even, of [M / 2^k]. *)
Definition rne (M k : Z) : Z :=
  let q := M / 2 ^ k in
  let r := M mod 2 ^ k in
  if (2 ^ k <? 2 * r) || ((2 * r =? 2 ^ k) && Z.odd q) then q + 1 else q.

Lemma iter_pos_nat {A} (f : A -> A) (p : positive) :
  forall x : A, SpecFloat.iter_pos f p x = Nat.iter (Pos.to_nat p) f x.
Proof.
  induction p as [p IH | p IH |]; intros x; cbn [SpecFloat.iter_pos].
  - rewrite !IH, Pos2Nat.inj_xI.
    replace (S (2 * Pos.to_nat p)) with (Pos.to_nat p + Pos.to_nat p + 1)%nat by lia.
    now rewrite !Nat.iter_add.
  - rewrite !IH, Pos2Nat.inj_xO.
    replace (2 * Pos.to_nat p)%nat with (Pos.to_nat p + Pos.to_nat p)%nat by lia.
    now rewrite Nat.iter_add.
  - reflexivity.
Qed.

Lemma shr_1_spec (m : Z) (r s : bool) :
  0 <= m ->
  shr_1 (Build_shr_record m r s) = Build_shr_record (m / 2) (Z.odd m) (r || s).
Proof.
  intros Hm. destruct m as [| p | p]; [reflexivity | | lia].
  destruct p as [p | p |]; simpl shr_1; f_equal.
  - rewrite Pos2Z.inj_xI. apply Z.div_unique with 1; lia.
  - rewrite Pos2Z.inj_xO. apply Z.div_unique with 0; lia.
Qed.

Lemma loc_exact_iff (rec : shr_record) :
  shr_r rec || shr_s rec = false <-> loc_of_shr_record rec = loc_Exact.
Proof. destruct rec as [m [|] [|]]; simpl; split; congruence. Qed.

(** [k] shifts of a mantissa [M]: the quotient and the place of the
    remainder. *)
Lemma shr_iter (M : Z) (k : nat) :
  0 <= M ->
  let rec := Nat.iter k shr_1 (Build_shr_record M false false) in
  shr_m rec = M / 2 ^ Z.of_nat k
  /\ loc_of_shr_record rec = locationOf (M mod 2 ^ Z.of_nat k) (Z.of_nat k).
Proof.
  intros HM. induction k as [| k IH]; cbv zeta.
  - simpl. rewrite Z.div_1_r, Z.mod_1_r. split; reflexivity.
  - rewrite Nat.iter_succ. cbv zeta in IH.
    destruct (Nat.iter k shr_1 _) as [q r s] eqn:E. simpl in IH.
    destruct IH as [Hq Hloc].
    assert (Hk : 0 < 2 ^ Z.of_nat k) by (apply Z.pow_pos_nonneg; lia).
    assert (Hq0 : 0 <= q) by (subst q; apply Z.div_pos; lia).
    rewrite shr_1_spec by exact Hq0.
    unfold locationOf.
    rewrite Nat2Z.inj_succ, Z.pow_succ_r by lia.
    set (P := 2 ^ Z.of_nat k) in *.
    assert (Hdiv : M / (2 * P) = q / 2).
    { subst q. rewrite (Z.mul_comm 2 P). symmetry.
      apply Z.div_div; lia. }
    assert (Hq2 : q mod 2 = Z.b2z (Z.odd q)).
    { rewrite <- Z.bit0_odd. symmetry. apply Z.bit0_mod. }
    assert (Hmod : M mod (2 * P) = M mod P + P * Z.b2z (Z.odd q)).
    { rewrite <- Hq2. subst q. rewrite (Z.mul_comm 2 P).
      apply Z.rem_mul_r; lia. }
    split; [simpl; now rewrite Hdiv |].
    assert (Hrs : (r || s) = negb (M mod P =? 0)).
    { unfold locationOf in Hloc. destruct (M mod P =? 0) eqn:E0.
      - now apply (loc_exact_iff (Build_shr_record q r s)).
      - destruct r, s; simpl in *; congruence. }
    assert (HR : 0 <= M mod P < P) by (apply Z.mod_pos_bound; lia).
    rewrite Hmod, Hrs.
    destruct (Z.odd q); simpl Z.b2z.
    + replace (M mod P + P * 1 =? 0) with false
        by (symmetry; apply Z.eqb_neq; lia).
      destruct (Z.eqb_spec (M mod P) 0) as [H0 | H0]; simpl.
      * rewrite H0. f_equal. symmetry. apply Z.compare_eq_iff. lia.
      * f_equal. symmetry. apply Z.compare_gt_iff. lia.
    + rewrite Z.mul_0_r, Z.add_0_r.
      destruct (Z.eqb_spec (M mod P) 0) as [H0 | H0]; simpl; [reflexivity |].
      f_equal. symmetry. apply Z.compare_lt_iff. lia.
Qed.

Lemma round_nearest_even_rne (M k : Z) :
  0 <= k ->
  round_nearest_even (M / 2 ^ k) (locationOf (M mod 2 ^ k) k) = rne M k.
Proof.
  intros Hk. unfold rne, locationOf.
  assert (HP : 0 < 2 ^ k) by (apply Z.pow_pos_nonneg; lia).
  assert (HR : 0 <= M mod 2 ^ k < 2 ^ k) by (apply Z.mod_pos_bound; lia).
  set (r := M mod 2 ^ k) in *. set (q := M / 2 ^ k).
  destruct (Z.eqb_spec r 0) as [H0 | H0].
  - assert (H1 : (2 ^ k <? 2 * r) = false) by (apply Z.ltb_ge; lia).
    assert (H2 : (2 * r =? 2 ^ k) = false) by (apply Z.eqb_neq; lia).
    rewrite H1, H2. reflexivity.
  - destruct (Z.compare_spec (2 * r) (2 ^ k)) as [He | Hl | Hg].
    + rewrite He, Z.ltb_irrefl, Z.eqb_refl.
      cbn [round_nearest_even orb andb].
      rewrite <- Z.negb_odd. now destruct (Z.odd q).
    + assert (H1 : (2 ^ k <? 2 * r) = false) by (apply Z.ltb_ge; lia).
      assert (H2 : (2 * r =? 2 ^ k) = false) by (apply Z.eqb_neq; lia).
      rewrite H1, H2. reflexivity.
    + assert (H1 : (2 ^ k <? 2 * r) = true) by (apply Z.ltb_lt; lia).
      rewrite H1. reflexivity.
Qed.

Lemma rne_bounds (M k : Z) :
  0 <= k -> M / 2 ^ k <= rne M k <= M / 2 ^ k + 1.
Proof. intros Hk. unfold rne. destruct (_ || _); lia. Qed.

Lemma rne_upper (M k j : Z) :
  0 <= k -> 0 <= j -> 0 <= M < 2 ^ (k + j) -> rne M k <= 2 ^ j.
Proof.
  intros Hk Hj HM. pose proof (rne_bounds M k Hk) as Hb.
  assert (HP : 0 < 2 ^ k) by (apply Z.pow_pos_nonneg; lia).
  assert (Hq : M / 2 ^ k < 2 ^ j).
  { apply Z.div_lt_upper_bound; [lia |]. rewrite <- Z.pow_add_r; lia. }
  lia.
Qed.

Lemma rne_lower (M k j : Z) :
  0 <= k -> 0 <= j -> 2 ^ (k + j) <= M -> 2 ^ j <= rne M k.
Proof.
  intros Hk Hj HM. pose proof (rne_bounds M k Hk) as Hb.
  assert (HP : 0 < 2 ^ k) by (apply Z.pow_pos_nonneg; lia).
  assert (Hq : 2 ^ j <= M / 2 ^ k).
  { apply Z.div_le_lower_bound; [lia |]. rewrite <- Z.pow_add_r; lia. }
  lia.
Qed.

Lemma rne_mono (M1 M2 k : Z) :
  0 <= k -> M1 <= M2 -> rne M1 k <= rne M2 k.
Proof.
  intros Hk HM.
  assert (HP : 0 < 2 ^ k) by (apply Z.pow_pos_nonneg; lia).
  pose proof (Z.div_le_mono M1 M2 (2 ^ k) HP HM) as Hq.
  pose proof (rne_bounds M1 k Hk) as Hb1.
  pose proof (rne_bounds M2 k Hk) as Hb2.
  destruct (Z.eq_dec (M1 / 2 ^ k) (M2 / 2 ^ k)) as [Heq | Hne]; [| lia].
  pose proof (Z.div_mod M1 (2 ^ k)) as D1.
  pose proof (Z.div_mod M2 (2 ^ k)) as D2.
  assert (Hr : M1 mod 2 ^ k <= M2 mod 2 ^ k) by (rewrite Heq in D1; lia).
  unfold rne. rewrite Heq.
  set (q := M2 / 2 ^ k). set (r1 := M1 mod 2 ^ k) in *.
  set (r2 := M2 mod 2 ^ k) in *.
  destruct (Z.ltb_spec (2 ^ k) (2 * r1)) as [H1 | H1];
    destruct (Z.ltb_spec (2 ^ k) (2 * r2)) as [H2 | H2];
    destruct (Z.eqb_spec (2 * r1) (2 ^ k)) as [H3 | H3];
    destruct (Z.eqb_spec (2 * r2) (2 ^ k)) as [H4 | H4];
    destruct (Z.odd q); simpl; lia.
Qed.

Lemma rne_scale (M k j : Z) :
  0 <= k -> 0 <= j -> rne (M * 2 ^ j) (k + j) = rne M k.
Proof.
  intros Hk Hj. unfold rne.
  assert (HP : 0 < 2 ^ k) by (apply Z.pow_pos_nonneg; lia).
  assert (HJ : 0 < 2 ^ j) by (apply Z.pow_pos_nonneg; lia).
  rewrite Z.pow_add_r by lia.
  rewrite Z.div_mul_cancel_r by lia.
  rewrite Z.mul_mod_distr_r by lia.
  set (q := M / 2 ^ k). set (r := M mod 2 ^ k).
  assert (H1 : (2 ^ k * 2 ^ j <? 2 * (r * 2 ^ j)) = (2 ^ k <? 2 * r)).
  { apply eq_true_iff_eq. rewrite !Z.ltb_lt. nia. }
  assert (H2 : (2 * (r * 2 ^ j) =? 2 ^ k * 2 ^ j) = (2 * r =? 2 ^ k)).
  { apply eq_true_iff_eq. rewrite !Z.eqb_eq. nia. }
  now rewrite H1, H2.
Qed.

(** *** The size of a mantissa *)

Definition digits (M : Z) : Z := Z.succ (Z.log2 M).

Lemma digits2_pos_log2 (p : positive) :
  Zpos (digits2_pos p) = digits (Zpos p).
Proof.
  unfold digits. induction p as [p IH | p IH |]; simpl digits2_pos.
  - rewrite Pos2Z.inj_succ, IH, Pos2Z.inj_xI.
    now rewrite Z.log2_succ_double by lia.
  - rewrite Pos2Z.inj_succ, IH, Pos2Z.inj_xO.
    now rewrite Z.log2_double by lia.
  - reflexivity.
Qed.

Lemma digits_bounds (M : Z) :
  0 < M -> 2 ^ (digits M - 1) <= M < 2 ^ digits M.
Proof.
  intros HM. unfold digits. replace (Z.succ (Z.log2 M) - 1) with (Z.log2 M) by lia.
  apply Z.log2_spec, HM.
Qed.

Lemma digits_pos (M : Z) : 0 < M -> 0 < digits M.
Proof. intros HM. unfold digits. pose proof (Z.log2_nonneg M). lia. Qed.

Lemma digits_mono (M1 M2 : Z) : 0 < M1 -> M1 <= M2 -> digits M1 <= digits M2.
Proof.
  intros H1 H2. unfold digits. pose proof (Z.log2_le_mono M1 M2 H2). lia.
Qed.

Lemma digits_scale (M j : Z) :
  0 < M -> 0 <= j -> digits (M * 2 ^ j) = digits M + j.
Proof.
  intros HM Hj. unfold digits. rewrite Z.log2_mul_pow2 by lia. lia.
Qed.

Lemma digits_ge (M j : Z) : 0 <= j -> 2 ^ j <= M -> j < digits M.
Proof.
  intros Hj HM. unfold digits.
  assert (0 < 2 ^ j) by (apply Z.pow_pos_nonneg; lia).
  apply Z.log2_le_pow2 in HM; lia.
Qed.

Lemma digits_le (M j : Z) : 0 < M -> 0 <= j -> M < 2 ^ j -> digits M <= j.
Proof.
  intros H0 Hj HM. unfold digits. apply Z.log2_lt_pow2 in HM; lia.
Qed.

(** *** [binary_round_aux] on an exact product *)

Definition emin64 : Z := -1074.

(** [fexp prec emax] *)
Definition fexp64 (e : Z) : Z := Z.max (e - 53) emin64.

(** The float of sign [s] with integer significand [m <= 2^53] at exponent
    [e]: the carry to 2^53 moves to the next exponent, and an exponent above
    971 overflows. *)
Definition finish (s : bool) (m e : Z) : spec_float :=
  if m =? 0 then S754_zero s
  else if m =? 9007199254740992 then
    if e + 1 <=? 971 then S754_finite s 4503599627370496 (e + 1)
    else S754_infinity s
  else if e <=? 971 then S754_finite s (Z.to_pos m) e
  else S754_infinity s.

(** The rounding of [M * 2^E]. *)
Definition roundAt (s : bool) (M E : Z) : spec_float :=
  let e := fexp64 (digits M + E) in
  finish s (rne M (e - E)) e.

Lemma shr_nat (rec : shr_record) (e n : Z) :
  0 <= n -> shr rec e n = (Nat.iter (Z.to_nat n) shr_1 rec, e + n).
Proof.
  intros Hn. destruct n as [| p | p]; [| | lia]; simpl.
  - now rewrite Z.add_0_r.
  - now rewrite iter_pos_nat.
Qed.

Lemma shr_nonpos (rec : shr_record) (e n : Z) :
  n <= 0 -> shr rec e n = (rec, e).
Proof. intros Hn. destruct n as [| p | p]; [reflexivity | lia | reflexivity]. Qed.

Lemma binary_round_aux_roundAt (s : bool) (M : positive) (E : Z) :
  0 <= fexp64 (digits (Zpos M) + E) - E ->
  binary_round_aux prec emax s (Zpos M) E loc_Exact = roundAt s (Zpos M) E.
Proof.
  intros Hn. unfold roundAt, binary_round_aux, shr_fexp.
  change (fexp prec emax) with fexp64. cbn [Zdigits2 shr_record_of_loc].
  rewrite digits2_pos_log2.
  set (e := fexp64 (digits (Zpos M) + E)) in *.
  set (n := e - E) in *.
  rewrite shr_nat by exact Hn.
  destruct (shr_iter (Zpos M) (Z.to_nat n)) as [Hm Hloc]; [lia |].
  rewrite Z2Nat.id in Hm, Hloc by exact Hn.
  rewrite Hm, Hloc, round_nearest_even_rne by exact Hn.
  replace (E + n) with e by (unfold n; lia).
  (* the size of the rounded significand *)
  pose proof (digits_bounds (Zpos M) ltac:(lia)) as Hd.
  pose proof (digits_pos (Zpos M) ltac:(lia)) as Hd0.
  assert (He : emin64 <= e /\ digits (Zpos M) + E - 53 <= e)
    by (unfold e, fexp64, emin64; lia).
  assert (Hup : rne (Zpos M) n <= 2 ^ 53).
  { apply rne_upper; [lia | lia |]. split; [lia |].
    eapply Z.lt_le_trans; [apply Hd |].
    apply Z.pow_le_mono_r; unfold n; lia. }
  assert (Hlo : 0 <= rne (Zpos M) n).
  { pose proof (rne_bounds (Zpos M) n Hn).
    assert (0 <= Zpos M / 2 ^ n)
      by (apply Z.div_pos; [lia | apply Z.pow_pos_nonneg; lia]).
    lia. }
  change (2 ^ 53) with 9007199254740992 in Hup.
  unfold finish. set (a := rne (Zpos M) n) in *.
  destruct (Z.eqb_spec a 0) as [Ha0 | Ha0].
  - rewrite Ha0. cbn [Zdigits2]. rewrite shr_nonpos by (unfold fexp64, emin64 in *; lia).
    reflexivity.
  - destruct (Z.eqb_spec a 9007199254740992) as [Ha1 | Ha1].
    + rewrite Ha1. cbn [Zdigits2]. rewrite digits2_pos_log2.
      change (digits 9007199254740992) with 54.
      replace (fexp64 (54 + e) - e) with 1 by (unfold fexp64, emin64 in *; lia).
      reflexivity.
    + destruct a as [| p | p]; [lia | | lia]. cbn [Zdigits2].
      rewrite digits2_pos_log2.
      rewrite shr_nonpos; [reflexivity |].
      assert (digits (Zpos p) <= 53) by (apply digits_le; lia).
      unfold fexp64, emin64 in *. lia.
Qed.

(** *** The order of the numbers *)

(** A rank that orders the numbers as [SFcompare] does: the class and sign
    first, then the exponent, then the significand. *)
Definition key (x : spec_float) : Z * Z * Z :=
  match x with
  | S754_nan => (0, 0, 0)
  | S754_zero _ => (0, 0, 0)
  | S754_infinity s => (if s then -2 else 2, 0, 0)
  | S754_finite s m e => if s then (-1, - e, - Zpos m) else (1, e, Zpos m)
  end.

Definition lexle (a b : Z * Z * Z) : Prop :=
  a.1.1 < b.1.1
  \/ (a.1.1 = b.1.1 /\ (a.1.2 < b.1.2 \/ (a.1.2 = b.1.2 /\ a.2 <= b.2))).

Definition lexlt (a b : Z * Z * Z) : Prop :=
  a.1.1 < b.1.1
  \/ (a.1.1 = b.1.1 /\ (a.1.2 < b.1.2 \/ (a.1.2 = b.1.2 /\ a.2 < b.2))).

Definition notNaN (x : spec_float) : Prop := x <> S754_nan.

Ltac order_cases :=
  unfold SFleb, SFltb, SFcompare, lexle, lexlt, key, notNaN;
  repeat match goal with
         | s : bool |- _ => destruct s
         end;
  cbn [fst snd];
  try match goal with
      | |- context [Pos.compare_cont Eq ?m ?m'] =>
          change (Pos.compare_cont Eq m m') with (Pos.compare m m');
          match goal with
          | |- context [Z.compare ?e ?e'] =>
              destruct (Z.compare_spec e e');
              destruct (Pos.compare_spec m m')
          end
      end;
  cbn [CompOpp];
  (split; [intros Hcmp; repeat split; try discriminate; try lia
          | intros (Hx & Hy & Hxy); try reflexivity; try congruence; try lia]).

Lemma SFleb_key (x y : spec_float) :
  SFleb x y = true <-> notNaN x /\ notNaN y /\ lexle (key x) (key y).
Proof.
  destruct x as [s | s | | s m e], y as [s' | s' | | s' m' e']; order_cases.
Qed.

Lemma SFltb_key (x y : spec_float) :
  SFltb x y = true <-> notNaN x /\ notNaN y /\ lexlt (key x) (key y).
Proof.
  destruct x as [s | s | | s m e], y as [s' | s' | | s' m' e']; order_cases.
Qed.

Lemma lexle_lt_trans (a b c : Z * Z * Z) : lexle a b -> lexlt b c -> lexlt a c.
Proof. unfold lexle, lexlt. lia. Qed.

(** *** Rounding is monotone *)

Lemma rne_range (M E : Z) :
  0 < M -> 0 <= fexp64 (digits M + E) - E ->
  0 <= rne M (fexp64 (digits M + E) - E) <= 9007199254740992.
Proof.
  intros HM Hn. set (n := fexp64 (digits M + E) - E) in *.
  pose proof (digits_bounds M HM) as Hd.
  pose proof (rne_bounds M n Hn) as Hb.
  assert (0 <= M / 2 ^ n)
    by (apply Z.div_pos; [lia | apply Z.pow_pos_nonneg; lia]).
  split; [lia |]. change 9007199254740992 with (2 ^ 53).
  apply rne_upper; [lia | lia |]. split; [lia |].
  eapply Z.lt_le_trans; [apply Hd |].
  apply Z.pow_le_mono_r; unfold n, fexp64, emin64; lia.
Qed.

Lemma finish_le (a1 a2 e1 e2 : Z) :
  0 <= a1 <= 9007199254740992 -> 0 <= a2 <= 9007199254740992 ->
  (e1 = e2 /\ a1 <= a2) \/ (e1 < e2 /\ 4503599627370496 <= a2) ->
  lexle (key (finish false a1 e1)) (key (finish false a2 e2)).
Proof.
  intros H1 H2 H. unfold finish.
  destruct (Z.eqb_spec a1 0); destruct (Z.eqb_spec a2 0);
    destruct (Z.eqb_spec a1 9007199254740992);
    destruct (Z.eqb_spec a2 9007199254740992);
    destruct (Z.leb_spec (e1 + 1) 971); destruct (Z.leb_spec (e2 + 1) 971);
    destruct (Z.leb_spec e1 971); destruct (Z.leb_spec e2 971);
    unfold lexle, key; cbn [fst snd];
    rewrite ?Z2Pos.id by lia; lia.
Qed.

Lemma roundAt_mono (M1 M2 E : Z) :
  0 < M1 -> M1 <= M2 ->
  0 <= fexp64 (digits M1 + E) - E -> 0 <= fexp64 (digits M2 + E) - E ->
  lexle (key (roundAt false M1 E)) (key (roundAt false M2 E)).
Proof.
  intros HM1 HM Hn1 Hn2. unfold roundAt.
  pose proof (digits_mono M1 M2 HM1 HM) as Hd.
  pose proof (rne_range M1 E HM1 Hn1) as Hr1.
  pose proof (rne_range M2 E ltac:(lia) Hn2) as Hr2.
  set (e1 := fexp64 (digits M1 + E)) in *.
  set (e2 := fexp64 (digits M2 + E)) in *.
  apply finish_le; try assumption.
  destruct (Z.eq_dec e1 e2) as [He | He].
  - left. split; [exact He |]. rewrite He. apply rne_mono; lia.
  - right. assert (Hlt : e1 < e2) by (unfold e1, e2, fexp64 in *; lia).
    split; [exact Hlt |]. change 4503599627370496 with (2 ^ 52).
    apply rne_lower; [lia | lia |].
    pose proof (digits_bounds M2 ltac:(lia)) as Hb.
    replace (e2 - E + 52) with (digits M2 - 1); [lia |].
    unfold e1, e2, fexp64, emin64 in *. lia.
Qed.

Lemma roundAt_scale (s : bool) (M E j : Z) :
  0 < M -> 0 <= j -> 0 <= fexp64 (digits M + E) - E ->
  roundAt s (M * 2 ^ j) (E - j) = roundAt s M E.
Proof.
  intros HM Hj Hn. unfold roundAt. rewrite digits_scale by lia.
  replace (digits M + j + (E - j)) with (digits M + E) by lia.
  set (e := fexp64 (digits M + E)) in *.
  replace (e - (E - j)) with (e - E + j) by lia.
  now rewrite rne_scale by lia.
Qed.

Lemma finish_opp (m e : Z) : finish true m e = SFopp (finish false m e).
Proof.
  unfold finish.
  destruct (m =? 0); [reflexivity |].
  destruct (m =? 9007199254740992);
    [destruct (e + 1 <=? 971) | destruct (e <=? 971)]; reflexivity.
Qed.

Lemma roundAt_opp (M E : Z) : roundAt true M E = SFopp (roundAt false M E).
Proof. apply finish_opp. Qed.

Lemma key_opp (x : spec_float) :
  key (SFopp x) = (- (key x).1.1, - (key x).1.2, - (key x).2).
Proof.
  destruct x as [s | s | | s m e]; try destruct s;
    cbn [key SFopp negb fst snd]; rewrite ?Z.opp_involutive; reflexivity.
Qed.

Lemma lexle_opp (x y : spec_float) :
  lexle (key (SFopp x)) (key (SFopp y)) <-> lexle (key y) (key x).
Proof. rewrite !key_opp. unfold lexle. cbn [fst snd]. lia. Qed.

Lemma roundAt_notNaN (s : bool) (M E : Z) : notNaN (roundAt s M E).
Proof.
  unfold roundAt, finish, notNaN.
  repeat match goal with |- context [if ?b then _ else _] => destruct b end;
    discriminate.
Qed.

Lemma roundAt_shape (s : bool) (M E : Z) :
  roundAt s M E = S754_zero s
  \/ roundAt s M E = S754_infinity s
  \/ exists (p : positive) (e : Z), roundAt s M E = S754_finite s p e.
Proof.
  unfold roundAt, finish.
  repeat match goal with |- context [if ?b then _ else _] => destruct b end;
    eauto.
Qed.

(** *** Multiplication by a positive normal constant is monotone *)

Section Scaling.

Variables (mc : positive) (ec : Z).
Hypothesis mc_normal : 4503599627370496 <= Zpos mc.

Definition scaled (x : spec_float) : spec_float :=
  SFmul prec emax x (S754_finite false mc ec).

Lemma product_exponent (M E : Z) :
  4503599627370496 <= M -> 0 <= fexp64 (digits M + E) - E.
Proof.
  intros HM. pose proof (digits_ge M 52 ltac:(lia) HM).
  unfold fexp64, emin64. lia.
Qed.

Lemma scaled_finite (s : bool) (m : positive) (e : Z) :
  scaled (S754_finite s m e) = roundAt s (Zpos m * Zpos mc) (e + ec).
Proof.
  unfold scaled, SFmul. rewrite xorb_false_r, <- Pos2Z.inj_mul.
  apply binary_round_aux_roundAt, product_exponent.
  rewrite Pos2Z.inj_mul. nia.
Qed.

Lemma valid_canonical (s : bool) (m : positive) (e : Z) :
  valid_binary (S754_finite s m e) = true ->
  Zpos m < 9007199254740992
  /\ emin64 <= e
  /\ (emin64 < e -> 4503599627370496 <= Zpos m).
Proof.
  unfold SpecFloat.valid_binary, bounded, canonical_mantissa.
  change (fexp prec emax) with fexp64. rewrite digits2_pos_log2.
  intros H. apply andb_true_iff in H as [H _]. apply Z.eqb_eq in H.
  pose proof (digits_bounds (Zpos m) ltac:(lia)) as [Hlo Hhi].
  unfold fexp64, emin64 in *.
  assert (Hd : digits (Zpos m) <= 53) by lia.
  repeat split.
  - eapply Z.lt_le_trans; [exact Hhi |].
    change 9007199254740992 with (2 ^ 53). apply Z.pow_le_mono_r; lia.
  - lia.
  - intros He. replace (digits (Zpos m)) with 53 in Hlo by lia. exact Hlo.
Qed.

Lemma scaled_core (m1 m2 : positive) (e1 e2 : Z) :
  valid_binary (S754_finite false m1 e1) = true ->
  valid_binary (S754_finite false m2 e2) = true ->
  e1 < e2 \/ (e1 = e2 /\ (m1 <= m2)%positive) ->
  lexle (key (roundAt false (Zpos m1 * Zpos mc) (e1 + ec)))
        (key (roundAt false (Zpos m2 * Zpos mc) (e2 + ec))).
Proof.
  intros V1 V2 H.
  apply valid_canonical in V1 as (U1 & L1 & N1).
  apply valid_canonical in V2 as (U2 & L2 & N2).
  destruct H as [Hlt | [-> Hle]].
  - set (j := e2 - e1).
    rewrite <- (roundAt_scale false (Zpos m2 * Zpos mc) (e2 + ec) j)
      by (try apply product_exponent; unfold j; nia).
    replace (e2 + ec - j) with (e1 + ec) by (unfold j; lia).
    assert (Hj : 2 <= 2 ^ j).
    { change 2 with (2 ^ 1) at 1. apply Z.pow_le_mono_r; unfold j; lia. }
    assert (Hm2 : 4503599627370496 <= Zpos m2) by (apply N2; lia).
    set (P := 2 ^ j) in *.
    assert (Hm : Zpos m1 <= Zpos m2 * P) by nia.
    assert (HM : Zpos m1 * Zpos mc <= Zpos m2 * Zpos mc * P).
    { replace (Zpos m2 * Zpos mc * P) with (Zpos m2 * P * Zpos mc) by ring.
      apply Z.mul_le_mono_nonneg_r; lia. }
    apply roundAt_mono; try (apply product_exponent); nia.
  - apply roundAt_mono; try (apply product_exponent); nia.
Qed.

Lemma scaled_key_class (x : spec_float) :
  notNaN x ->
  notNaN (scaled x)
  /\ (key x = (0, 0, 0) -> key (scaled x) = (0, 0, 0))
  /\ ((key x).1.1 = 2 -> key (scaled x) = (2, 0, 0))
  /\ ((key x).1.1 = -2 -> key (scaled x) = (-2, 0, 0))
  /\ ((key x).1.1 = 1 ->
      key (scaled x) = (0, 0, 0) \/ key (scaled x) = (2, 0, 0)
      \/ (key (scaled x)).1.1 = 1)
  /\ ((key x).1.1 = -1 ->
      key (scaled x) = (0, 0, 0) \/ key (scaled x) = (-2, 0, 0)
      \/ (key (scaled x)).1.1 = -1).
Proof.
  intros Hx. destruct x as [s | s | | s m e]; [| | now destruct Hx |].
  - unfold notNaN. cbn. repeat split; try discriminate; auto.
  - unfold notNaN. destruct s; cbn; repeat split; try discriminate; auto.
  - rewrite scaled_finite. split; [apply roundAt_notNaN |].
    destruct (roundAt_shape s (Zpos m * Zpos mc) (e + ec))
      as [-> | [-> | (p & e' & ->)]];
      destruct s; cbn; repeat split; intros; try discriminate; try lia; auto.
Qed.

Lemma scaled_mono (x1 x2 : spec_float) :
  valid_binary x1 = true -> valid_binary x2 = true ->
  SFleb x1 x2 = true -> SFleb (scaled x1) (scaled x2) = true.
Proof.
  intros V1 V2. rewrite !SFleb_key. intros (N1 & N2 & H).
  destruct (scaled_key_class x1 N1) as (M1 & Z1 & P1 & Q1 & F1 & G1).
  destruct (scaled_key_class x2 N2) as (M2 & Z2 & P2 & Q2 & F2 & G2).
  split; [exact M1 |]. split; [exact M2 |].
  destruct x1 as [s1 | s1 | | s1 m1 e1]; [| | now destruct N1 |];
    (destruct x2 as [s2 | s2 | | s2 m2 e2]; [| | now destruct N2 |]).
  1-8: try (destruct s1); try (destruct s2);
       unfold lexle in *; cbn [key fst snd] in *;
       try (rewrite Z1 by reflexivity); try (rewrite Z2 by reflexivity);
       try (rewrite P1 by reflexivity); try (rewrite P2 by reflexivity);
       try (rewrite Q1 by reflexivity); try (rewrite Q2 by reflexivity);
       cbn [fst snd];
       try (destruct (F1 eq_refl) as [-> | [-> | ?]]);
       try (destruct (F2 eq_refl) as [-> | [-> | ?]]);
       try (destruct (G1 eq_refl) as [-> | [-> | ?]]);
       try (destruct (G2 eq_refl) as [-> | [-> | ?]]);
       cbn [fst snd]; try lia.
  rewrite !scaled_finite in *.
  destruct s1, s2.
  - rewrite !roundAt_opp. apply lexle_opp.
    apply scaled_core; auto.
    unfold lexle in H. cbn [key fst snd] in H. lia.
  - unfold lexle. cbn [key fst snd] in *.
    destruct (G1 eq_refl) as [-> | [-> | ?]];
      destruct (F2 eq_refl) as [-> | [-> | ?]]; cbn [fst snd]; lia.
  - unfold lexle in H. cbn [key fst snd] in H. lia.
  - apply scaled_core; auto.
    unfold lexle in H. cbn [key fst snd] in H. lia.
Qed.

End Scaling.

(** *** On the runtime's numbers *)

Lemma leb_ltb_trans (t1 t2 a : float) :
  (t1 <=? t2)%float = true -> (t2 <? a)%float = true ->
  (t1 <? a)%float = true.
Proof.
  rewrite leb_spec, !ltb_spec, SFleb_key, !SFltb_key.
  intros (N1 & N2 & H1) (_ & Na & H2). repeat split; auto.
  eapply lexle_lt_trans; eauto.
Qed.

Lemma leb_mul_mono (t1 t2 c : float) (mc : positive) (ec : Z) :
  Prim2SF c = S754_finite false mc ec ->
  4503599627370496 <= Zpos mc ->
  (t1 <=? t2)%float = true -> (t1 * c <=? t2 * c)%float = true.
Proof.
  intros Hc Hmc. rewrite !leb_spec, !mul_spec, Hc.
  apply (scaled_mono mc ec Hmc); apply Prim2SF_valid.
Qed.

End Rounding.

(** ** The loop of [detectOutliers], row by row *)

Module StatsFacts.
Import JS Stats.

Section Loop.
Variables (xStats yStats : FieldStats) (xKey yKey : string) (threshold : float).

Definition rowFlagged (row : DataRow) : bool :=
  flagged (zScore (Number (row !! xKey)) xStats)
          (zScore (Number (row !! yKey)) yStats) threshold.

(** What the loop body pushes onto [processedData] for [row]. *)
Definition scoredRow (row : DataRow) : OutlierDataPoint :=
  <[yKey := VNum (Number (row !! yKey))]>
    (<[xKey := VNum (Number (row !! xKey))]>
      (<["zScoreY" := VNum (zScore (Number (row !! yKey)) yStats)]>
        (<["zScoreX" := VNum (zScore (Number (row !! xKey)) xStats)]>
          (<["isOutlier" := VBool (rowFlagged row)]> row)))).

(** The positions, counted from [index], of the flagged rows of [l]. *)
Fixpoint flaggedFrom (index : nat) (l : list DataRow) : list nat :=
  match l with
  | [] => []
  | row :: l' =>
      if rowFlagged row then index :: flaggedFrom (S index) l'
      else flaggedFrom (S index) l'
  end.

Lemma visit_spec (acc : Result) (index : nat) (row : DataRow) :
  visit xStats yStats xKey yKey threshold acc index row =
  mkResult (processedData acc ++ [scoredRow row])
           (outlierIndices acc ++ (if rowFlagged row then [index] else [])).
Proof.
  unfold visit, scoredRow, rowFlagged. simpl.
  destruct (flagged _ _ _); simpl; now rewrite ?app_nil_r.
Qed.

Lemma forEach_visit (l : list DataRow) :
  forall (index : nat) (acc : Result),
    forEach (visit xStats yStats xKey yKey threshold) l index acc =
    mkResult (processedData acc ++ List.map scoredRow l)
             (outlierIndices acc ++ flaggedFrom index l).
Proof.
  induction l as [| row l IH]; intros index acc; simpl.
  - rewrite !app_nil_r. now destruct acc.
  - rewrite IH, visit_spec. simpl. rewrite <- !app_assoc. simpl.
    now destruct (rowFlagged row).
Qed.

Lemma elem_of_flaggedFrom (l : list DataRow) :
  forall (index i : nat),
    i ∈ flaggedFrom index l <->
    exists j row, i = (index + j)%nat /\ l !! j = Some row
                  /\ rowFlagged row = true.
Proof.
  induction l as [| row l IH]; intros index i; simpl.
  - split; [intros H; inversion H | intros (j & r & _ & H & _); discriminate].
  - assert (Htail : i ∈ flaggedFrom (S index) l <->
                    exists j r, i = (index + S j)%nat /\ l !! j = Some r
                                /\ rowFlagged r = true).
    { rewrite IH. split; intros (j & r & -> & H1 & H2); exists j, r;
        repeat split; auto; lia. }
    destruct (rowFlagged row) eqn:Hf.
    + rewrite elem_of_cons, Htail. split.
      * intros [-> | (j & r & -> & H1 & H2)].
        -- exists 0%nat, row. repeat split; auto; lia.
        -- exists (S j), r. auto.
      * intros ([| j] & r & -> & H1 & H2).
        -- left; lia.
        -- right. exists j, r. auto.
    + rewrite Htail. split.
      * intros (j & r & -> & H1 & H2). exists (S j), r. auto.
      * intros ([| j] & r & -> & H1 & H2).
        -- simpl in H1. injection H1 as <-. congruence.
        -- exists j, r. auto.
Qed.

Lemma flaggedFrom_sorted (l : list DataRow) :
  forall index : nat, StronglySorted lt (flaggedFrom index l).
Proof.
  induction l as [| row l IH]; intros index; simpl.
  - constructor.
  - destruct (rowFlagged row); [| apply IH].
    constructor; [apply IH |].
    apply Forall_forall. intros i Hi.
    apply elem_of_flaggedFrom in Hi as (j & r & -> & _). lia.
Qed.

End Loop.

Lemma detectOutliers_unfold (data : list DataRow) (xKey yKey : string)
    (threshold : float) :
  detectOutliers data xKey yKey threshold =
  mkResult
    (List.map (scoredRow (calculateStats data xKey) (calculateStats data yKey)
                 xKey yKey threshold) data)
    (flaggedFrom (calculateStats data xKey) (calculateStats data yKey)
       xKey yKey threshold 0 data).
Proof. unfold detectOutliers. now rewrite forEach_visit. Qed.

End StatsFacts.

(** ** The order of the runtime's numbers *)

Module FloatOrder.
Import Rounding.

(** The rank of a number. *)
Definition fkey (x : float) : Z * Z * Z := key (Prim2SF x).

Lemma is_nan_false (x : float) :
  PrimFloat.is_nan x = false <-> notNaN (Prim2SF x).
Proof.
  unfold PrimFloat.is_nan, notNaN. rewrite FloatAxioms.eqb_spec. unfold SFeqb.
  destruct (Prim2SF x) as [s | s | | s m e] eqn:E.
  1,2,4: rewrite FloatFacts.SFcompare_refl by discriminate;
         split; [discriminate | reflexivity].
  split; [discriminate | congruence].
Qed.

Lemma leb_key (x y : float) :
  (x <=? y)%float = true <->
  PrimFloat.is_nan x = false /\ PrimFloat.is_nan y = false
  /\ lexle (fkey x) (fkey y).
Proof. now rewrite leb_spec, SFleb_key, !is_nan_false. Qed.

Lemma ltb_key (x y : float) :
  (x <? y)%float = true <->
  PrimFloat.is_nan x = false /\ PrimFloat.is_nan y = false
  /\ lexlt (fkey x) (fkey y).
Proof. now rewrite ltb_spec, SFltb_key, !is_nan_false. Qed.

Lemma SFeqb_key (x y : spec_float) :
  SFeqb x y = true ->
  notNaN x /\ notNaN y /\ lexle (key x) (key y) /\ lexle (key y) (key x).
Proof.
  destruct x as [s | s | | s m e], y as [s' | s' | | s' m' e'];
    unfold SFeqb, SFcompare, lexle, key, notNaN;
    repeat match goal with
           | s : bool |- _ => destruct s
           end;
    cbn [fst snd];
    try match goal with
        | |- context [Pos.compare_cont Eq ?m ?m'] =>
            change (Pos.compare_cont Eq m m') with (Pos.compare m m');
            match goal with
            | |- context [Z.compare ?e ?e'] =>
                destruct (Z.compare_spec e e');
                destruct (Pos.compare_spec m m')
            end
        end;
    cbn [CompOpp];
    intros Hcmp; repeat split; try discriminate; try lia.
Qed.

Lemma eqb_key (x y : float) :
  (x =? y)%float = true ->
  lexle (fkey x) (fkey y) /\ lexle (fkey y) (fkey x).
Proof.
  rewrite FloatAxioms.eqb_spec. intros H.
  apply SFeqb_key in H as (_ & _ & H). exact H.
Qed.

(** Every rank lies between those of the two infinities. *)
Lemma key_range (x : spec_float) :
  lexle (-2, 0, 0) (key x) /\ lexle (key x) (2, 0, 0).
Proof.
  destruct x as [s | s | | s m e]; try destruct s;
    unfold lexle; cbn [key fst snd]; lia.
Qed.

Lemma key_infinity (x : float) :
  lexle (2, 0, 0) (fkey x) -> x = infinity.
Proof.
  unfold fkey. intros H. apply Prim2SF_inj.
  change (Prim2SF infinity) with (S754_infinity false).
  destruct (Prim2SF x) as [s | s | | s m e]; try destruct s;
    unfold lexle in H; cbn [key fst snd] in H; try lia; reflexivity.
Qed.

Lemma key_neg_infinity (x : float) :
  lexle (fkey x) (-2, 0, 0) -> x = neg_infinity.
Proof.
  unfold fkey. intros H. apply Prim2SF_inj.
  change (Prim2SF neg_infinity) with (S754_infinity true).
  destruct (Prim2SF x) as [s | s | | s m e]; try destruct s;
    unfold lexle in H; cbn [key fst snd] in H; try lia; reflexivity.
Qed.

Lemma ltb_false_leb (x y : float) :
  PrimFloat.is_nan x = false -> PrimFloat.is_nan y = false ->
  (x <? y)%float = false -> (y <=? x)%float = true.
Proof.
  intros Hx Hy H. apply leb_key. repeat split; auto.
  destruct (x <? y)%float eqn:E; [discriminate |].
  assert (Hn : ~ lexlt (fkey x) (fkey y)).
  { intros Hlt. assert ((x <? y)%float = true) by (apply ltb_key; auto).
    congruence. }
  unfold lexle, lexlt in *. lia.
Qed.

Lemma leb_ltb_false (x y : float) :
  (x <=? y)%float = true -> (y <? x)%float = false.
Proof.
  intros H. apply leb_key in H as (_ & _ & H).
  destruct (y <? x)%float eqn:E; [| reflexivity].
  apply ltb_key in E as (_ & _ & E). unfold lexle, lexlt in *. lia.
Qed.

Lemma ltb_nan_l (x : float) : (nan <? x)%float = false.
Proof. rewrite ltb_spec. reflexivity. Qed.

Lemma ltb_infinity_l (x : float) : (infinity <? x)%float = false.
Proof.
  destruct (infinity <? x)%float eqn:E; [| reflexivity].
  apply ltb_key in E as (_ & _ & E).
  pose proof (key_range (Prim2SF x)) as [_ H].
  change (fkey infinity) with (2, 0, 0) in E. unfold fkey, lexle, lexlt in *.
  cbn [fst snd] in *. lia.
Qed.

End FloatOrder.

(** ** The extrema of a list of numbers *)

Module Extrema.
Import JS Stats Rounding FloatOrder.

Lemma numericValues_not_nan (data : list DataRow) (key : string) :
  Forall (fun v => isNaN v = false) (numericValues data key).
Proof.
  apply Forall_forall. intros v Hv. unfold numericValues in Hv.
  apply list_elem_of_In, filter_In in Hv as [_ Hv].
  now apply negb_true_iff in Hv.
Qed.

Lemma lexle_trans (a b c : Z * Z * Z) : lexle a b -> lexle b c -> lexle a c.
Proof. unfold lexle. lia. Qed.

Lemma leb_refl (x : float) : isNaN x = false -> (x <=? x)%float = true.
Proof. intros H. apply leb_key. repeat split; auto. unfold lexle. lia. Qed.

Lemma leb_trans (x y z : float) :
  (x <=? y)%float = true -> (y <=? z)%float = true -> (x <=? z)%float = true.
Proof.
  rewrite !leb_key. intros (Hx & _ & H1) (_ & Hz & H2). repeat split; auto.
  eapply lexle_trans; eauto.
Qed.

(** One step of [Math.min] between two numbers picks one of them, below
    both. *)
Lemma min2_spec (lowest number : float) :
  isNaN lowest = false -> isNaN number = false ->
  (min2 lowest number = lowest \/ min2 lowest number = number)
  /\ (min2 lowest number <=? lowest)%float = true
  /\ (min2 lowest number <=? number)%float = true.
Proof.
  intros Hl Hn. unfold min2. rewrite Hl, Hn. cbn [orb].
  destruct (number <? lowest)%float eqn:Hlt.
  - repeat split; auto; [| now apply leb_refl].
    apply ltb_key in Hlt as (_ & _ & Hlt). apply leb_key. repeat split; auto.
    unfold lexle, lexlt in *. lia.
  - pose proof (ltb_false_leb _ _ Hn Hl Hlt) as Hle.
    destruct ((number =? 0)%float && (lowest =? 0)%float
              && get_sign number) eqn:Hz.
    + repeat split; auto; [| now apply leb_refl].
      apply andb_true_iff in Hz as [Hz _].
      apply andb_true_iff in Hz as [Hz1 Hz2].
      apply eqb_key in Hz1 as [Ha Hb]. apply eqb_key in Hz2 as [Hc Hd].
      apply leb_key. repeat split; auto.
      eapply lexle_trans; eauto.
    + repeat split; auto. now apply leb_refl.
Qed.

Lemma max2_spec (highest number : float) :
  isNaN highest = false -> isNaN number = false ->
  (max2 highest number = highest \/ max2 highest number = number)
  /\ (highest <=? max2 highest number)%float = true
  /\ (number <=? max2 highest number)%float = true.
Proof.
  intros Hh Hn. unfold max2. rewrite Hh, Hn. cbn [orb].
  destruct (highest <? number)%float eqn:Hlt.
  - repeat split; auto; [| now apply leb_refl].
    apply ltb_key in Hlt as (_ & _ & Hlt). apply leb_key. repeat split; auto.
    unfold lexle, lexlt in *. lia.
  - pose proof (ltb_false_leb _ _ Hh Hn Hlt) as Hle.
    destruct ((number =? 0)%float && (highest =? 0)%float
              && negb (get_sign number)) eqn:Hz.
    + repeat split; auto; [| now apply leb_refl].
      apply andb_true_iff in Hz as [Hz _].
      apply andb_true_iff in Hz as [Hz1 Hz2].
      apply eqb_key in Hz1 as [Ha Hb]. apply eqb_key in Hz2 as [Hc Hd].
      apply leb_key. repeat split; auto.
      eapply lexle_trans; eauto.
    + repeat split; auto. now apply leb_refl.
Qed.

Lemma fold_min2 (values : list float) :
  forall lowest : float,
    isNaN lowest = false -> Forall (fun v => isNaN v = false) values ->
    let r := fold_left min2 values lowest in
    isNaN r = false
    /\ (r = lowest \/ r ∈ values)
    /\ (r <=? lowest)%float = true
    /\ (forall v : float, v ∈ values -> (r <=? v)%float = true).
Proof.
  induction values as [| x values IH]; intros lowest Hl Hall; cbv zeta.
  - simpl. repeat split; auto; [now apply leb_refl |].
    intros v Hv. inversion Hv.
  - apply Forall_cons in Hall as [Hx Hall].
    destruct (min2_spec lowest x Hl Hx) as (Hpick & Hle1 & Hle2).
    assert (Hm : isNaN (min2 lowest x) = false)
      by (destruct Hpick as [-> | ->]; auto).
    destruct (IH (min2 lowest x) Hm Hall) as (Hr & Hin & Hle & Hmin).
    cbn [fold_left]. repeat split.
    + exact Hr.
    + destruct Hin as [-> | Hin].
      * destruct Hpick as [-> | ->]; [now left | right; apply list_elem_of_here].
      * right. now apply list_elem_of_further.
    + eapply leb_trans; eauto.
    + intros v Hv. apply elem_of_cons in Hv as [-> | Hv]; [| now apply Hmin].
      eapply leb_trans; eauto.
Qed.

Lemma fold_max2 (values : list float) :
  forall highest : float,
    isNaN highest = false -> Forall (fun v => isNaN v = false) values ->
    let r := fold_left max2 values highest in
    isNaN r = false
    /\ (r = highest \/ r ∈ values)
    /\ (highest <=? r)%float = true
    /\ (forall v : float, v ∈ values -> (v <=? r)%float = true).
Proof.
  induction values as [| x values IH]; intros highest Hh Hall; cbv zeta.
  - simpl. repeat split; auto; [now apply leb_refl |].
    intros v Hv. inversion Hv.
  - apply Forall_cons in Hall as [Hx Hall].
    destruct (max2_spec highest x Hh Hx) as (Hpick & Hle1 & Hle2).
    assert (Hm : isNaN (max2 highest x) = false)
      by (destruct Hpick as [-> | ->]; auto).
    destruct (IH (max2 highest x) Hm Hall) as (Hr & Hin & Hle & Hmax).
    cbn [fold_left]. repeat split.
    + exact Hr.
    + destruct Hin as [-> | Hin].
      * destruct Hpick as [-> | ->]; [now left | right; apply list_elem_of_here].
      * right. now apply list_elem_of_further.
    + eapply leb_trans; eauto.
    + intros v Hv. apply elem_of_cons in Hv as [-> | Hv]; [| now apply Hmax].
      eapply leb_trans; eauto.
Qed.

End Extrema.

(** ** The calls of [src/utils/stats.ts] and the objects they return *)

Module CallFacts.
Import JS Stats StatsFacts.

Section Engine.
Variable acceptsArguments : nat -> bool.

(** Whether the engine accepts the spread calls [calculateStats] makes on a
    column: it makes none when no value of the column is used. *)
Definition fits (data : list DataRow) (key : string) : bool :=
  Nat.eqb (length (numericValues data key)) 0
  || acceptsArguments (length (numericValues data key)).

Lemma calculateStats_outcome (data : list DataRow) (key : string) :
  StatsCalls.calculateStats acceptsArguments data key
  = if fits data key then Normal (Stats.calculateStats data key)
    else Throw "RangeError".
Proof.
  unfold StatsCalls.calculateStats, Stats.calculateStats, fits,
    StatsCalls.spreadCall, statsOfValues.
  destruct (Nat.eqb (length (numericValues data key)) 0); [reflexivity |].
  cbn [orb]. now destruct (acceptsArguments _).
Qed.

Lemma detectOutliers_outcome (data : list DataRow) (xKey yKey : string)
    (threshold : float) :
  StatsCalls.detectOutliers acceptsArguments data xKey yKey threshold
  = if fits data xKey && fits data yKey
    then Normal (Stats.detectOutliers data xKey yKey threshold)
    else Throw "RangeError".
Proof.
  unfold StatsCalls.detectOutliers, Stats.detectOutliers.
  rewrite !calculateStats_outcome.
  destruct (fits data xKey); [| reflexivity].
  now destruct (fits data yKey).
Qed.

(** A call that returns gives the object of [Stats]. *)
Lemma calculateStats_returned (data : list DataRow) (key : string)
    (st : FieldStats) :
  StatsCalls.calculateStats acceptsArguments data key = Normal st ->
  st = Stats.calculateStats data key.
Proof.
  rewrite calculateStats_outcome. destruct (fits data key); congruence.
Qed.

Lemma detectOutliers_returned (data : list DataRow) (xKey yKey : string)
    (threshold : float) (r : Result) :
  StatsCalls.detectOutliers acceptsArguments data xKey yKey threshold
  = Normal r ->
  r = Stats.detectOutliers data xKey yKey threshold.
Proof.
  rewrite detectOutliers_outcome.
  destruct (fits data xKey && fits data yKey); congruence.
Qed.

End Engine.

Lemma numericValues_repeat (row : DataRow) (key : string) (n : nat) :
  isNaN (Number (row !! key)) = false ->
  numericValues (repeat row n) key = repeat (Number (row !! key)) n.
Proof.
  intros H. unfold numericValues.
  induction n as [| n IH]; [reflexivity |].
  cbn [repeat List.map List.filter]. rewrite H. cbn [negb]. now f_equal.
Qed.

End CallFacts.

(** ** Claims about [calculateStats] *)

Module StatsClaims.
Import JS Stats FloatOrder Extrema CallFacts.

Definition zeroStats : FieldStats := mkStats 0 0 0 0.

(** *** The statistics as the specification words them *)

(** The values of a column that coerce to a number, row by row. *)
Fixpoint keptValues (data : list DataRow) (key : string) : list float :=
  match data with
  | [] => []
  | row :: rest =>
      if isNaN (Number (row !! key)) then keptValues rest key
      else Number (row !! key) :: keptValues rest key
  end.

(** The sum of the values, added to [start] one after the other. *)
Fixpoint totalFrom (start : float) (values : list float) : float :=
  match values with
  | [] => start
  | v :: rest => totalFrom (start + v)%float rest
  end.

Definition count (values : list float) : float := of_length (length values).

Definition arithmeticMean (values : list float) : float :=
  (totalFrom 0 values / count values)%float.

Definition squaredDeviation (centre v : float) : float :=
  ((v - centre) * (v - centre))%float.

(** The population standard deviation: the sum of the squared deviations
    from the mean is divided by the count, not by the count less one. *)
Definition populationStdDev (values : list float) : float :=
  PrimFloat.sqrt
    (totalFrom 0 (List.map (squaredDeviation (arithmeticMean values)) values)
     / count values)%float.

(** [st] holds the statistics of [values]: their arithmetic mean and
    population standard deviation, and as [min] and [max] two of the values
    that every value lies between. *)
Definition statisticsOf (values : list float) (st : FieldStats) : Prop :=
  mean st = arithmeticMean values
  /\ stdDev st = populationStdDev values
  /\ min st ∈ values
  /\ max st ∈ values
  /\ (forall v : float, v ∈ values ->
        (min st <=? v)%float = true /\ (v <=? max st)%float = true).

Lemma keptValues_numericValues (data : list DataRow) (key : string) :
  numericValues data key = keptValues data key.
Proof.
  unfold numericValues. induction data as [| row data IH]; [reflexivity |].
  cbn [List.map List.filter keptValues]. rewrite IH.
  now destruct (isNaN (Number (row !! key))).
Qed.

Lemma totalFrom_fold (values : list float) :
  forall start : float,
    fold_left (fun acc val => (acc + val)%float) values start
    = totalFrom start values.
Proof. induction values as [| v values IH]; intros start; simpl; auto. Qed.

Lemma totalFrom_squares (centre : float) (values : list float) :
  forall start : float,
    fold_left (fun acc val => (acc + pow2 (val - centre))%float) values start
    = totalFrom start (List.map (squaredDeviation centre) values).
Proof. induction values as [| v values IH]; intros start; simpl; auto. Qed.

Lemma Math_min_attained (values : list float) :
  values <> [] -> Forall (fun v => isNaN v = false) values ->
  Math_min values ∈ values
  /\ forall v : float, v ∈ values -> (Math_min values <=? v)%float = true.
Proof.
  intros Hne Hall. unfold Math_min.
  destruct (fold_min2 values infinity eq_refl Hall) as (_ & Hin & _ & Hmin).
  cbv zeta in *. split; [| exact Hmin].
  destruct Hin as [Heq | Hin]; [| exact Hin].
  destruct values as [| x values]; [congruence |].
  specialize (Hmin x (list_elem_of_here _ _)). rewrite Heq in *.
  apply leb_key in Hmin as (_ & _ & Hmin).
  rewrite (key_infinity x Hmin). apply list_elem_of_here.
Qed.

Lemma Math_max_attained (values : list float) :
  values <> [] -> Forall (fun v => isNaN v = false) values ->
  Math_max values ∈ values
  /\ forall v : float, v ∈ values -> (v <=? Math_max values)%float = true.
Proof.
  intros Hne Hall. unfold Math_max.
  destruct (fold_max2 values neg_infinity eq_refl Hall) as (_ & Hin & _ & Hmax).
  cbv zeta in *. split; [| exact Hmax].
  destruct Hin as [Heq | Hin]; [| exact Hin].
  destruct values as [| x values]; [congruence |].
  specialize (Hmax x (list_elem_of_here _ _)). rewrite Heq in *.
  apply leb_key in Hmax as (_ & _ & Hmax).
  rewrite (key_neg_infinity x Hmax). apply list_elem_of_here.
Qed.

(** The three outcomes of a call of [calculateStats], by the values of the
    column that coerce to a number. *)
Lemma calculateStats_cases (acceptsArguments : nat -> bool)
    (data : list DataRow) (key : string) :
  let values := keptValues data key in
  let call := StatsCalls.calculateStats acceptsArguments data key in
  (values = [] -> call = Normal zeroStats)
  /\ (values <> [] -> acceptsArguments (length values) = true ->
      exists st : FieldStats, call = Normal st /\ statisticsOf values st)
  /\ (values <> [] -> acceptsArguments (length values) = false ->
      call = Throw "RangeError").
Proof.
  cbv zeta. rewrite calculateStats_outcome. unfold fits, Stats.calculateStats.
  pose proof (numericValues_not_nan data key) as Hall.
  rewrite keptValues_numericValues in *.
  destruct (keptValues data key) as [| x values] eqn:E.
  - repeat split; intros; first [congruence | reflexivity].
  - cbn [length Nat.eqb orb]. repeat split; try congruence.
    + intros _ Hacc. cbn [length] in Hacc. rewrite Hacc.
      eexists. split; [reflexivity |].
      destruct (Math_min_attained (x :: values) ltac:(congruence) Hall)
        as [Hmin1 Hmin2].
      destruct (Math_max_attained (x :: values) ltac:(congruence) Hall)
        as [Hmax1 Hmax2].
      unfold statisticsOf, statsOfValues.
      cbn [mean stdDev min max].
      unfold populationStdDev, arithmeticMean, count.
      rewrite !totalFrom_fold, totalFrom_squares.
      repeat split; auto.
    + intros _ Hacc. cbn [length] in Hacc. now rewrite Hacc.
Qed.

(** C4, as amended.  [calculateStats] takes its statistics over exactly the
    values whose coercion is not NaN (an infinite value is kept), each as
    often as it occurs and in row order, and no coercion raises an error.
    When there is no such value it returns {mean: 0, stdDev: 0, min: 0,
    max: 0}.  When there are some and the engine accepts that many call
    arguments, it returns their arithmetic mean, their population standard
    deviation, and as min and max two of the values that bound them all;
    when the engine does not, the call throws a [RangeError]. *)
Theorem calculateStats_values (acceptsArguments : nat -> bool)
    (data : list DataRow) (key : string) :
  let values := keptValues data key in
  let call := StatsCalls.calculateStats acceptsArguments data key in
  (forall row : DataRow,
     keptValues [row] key
     = if PrimFloat.is_nan (Number (row !! key)) then []
       else [Number (row !! key)])
  /\ (forall before after : list DataRow,
        keptValues (before ++ after) key
        = keptValues before key ++ keptValues after key)
  /\ (values = [] -> call = Normal zeroStats)
  /\ (values <> [] -> acceptsArguments (length values) = true ->
      exists st : FieldStats, call = Normal st /\ statisticsOf values st)
  /\ (values <> [] -> acceptsArguments (length values) = false ->
      call = Throw "RangeError").
Proof.
  cbv zeta. split; [| split].
  - intros row. cbn [keptValues]. unfold isNaN.
    now destruct (PrimFloat.is_nan _).
  - intros before after. induction before as [| row before IH]; [reflexivity |].
    cbn [app keptValues]. rewrite IH.
    now destruct (isNaN (Number (row !! key))).
  - apply calculateStats_cases.
Qed.

Definition infiniteRow : DataRow := {[ "a" := VNum infinity ]}.

(** C4, the counterexample.  The only value of column [a] is Infinity: no
    value of the column is finite, yet the result is not the all-zero
    default on any engine; where the call of one argument is accepted the
    value is used: the mean, min and max are Infinity. *)
Lemma infinite_value_is_used :
  let data := [infiniteRow] in
  (forall row : DataRow, row ∈ data ->
     PrimFloat.is_finite (Number (row !! "a")) = false)
  /\ (forall acceptsArguments : nat -> bool,
        StatsCalls.calculateStats acceptsArguments data "a"
        <> Normal zeroStats)
  /\ StatsCalls.calculateStats (StatsCalls.upTo 65536) data "a"
     = Normal (mkStats infinity nan infinity infinity).
Proof.
  cbv zeta. split; [| split].
  - intros row Hrow. apply list_elem_of_singleton in Hrow as ->. reflexivity.
  - intros acceptsArguments H. rewrite calculateStats_outcome in H.
    destruct (fits acceptsArguments [infiniteRow] "a"); [| discriminate H].
    apply (f_equal (fun c => match c with
                             | Normal st => (mean st =? 0)%float
                             | Throw _ => true
                             end)) in H.
    vm_compute in H. discriminate H.
  - vm_compute. reflexivity.
Qed.

(** What one cell adds to the values of its column. *)
Definition contribution (cell : option value) : list float :=
  match cell with
  | Some VNull => [0%float]
  | Some (VBool true) => [1%float]
  | Some (VBool false) => [0%float]
  | Some (VNum n) => if isNaN n then [] else [n]
  | Some (VStr s) => if isNaN (StringToNumber s) then [] else [StringToNumber s]
  | None => []
  end.

Lemma contribution_spec (cell : option value) :
  contribution cell = if isNaN (Number cell) then [] else [Number cell].
Proof. now destruct cell as [[| [|] | n | s] |]. Qed.

Lemma keptValues_contribution (data : list DataRow) (key : string) :
  keptValues data key
  = flat_map (fun row : DataRow => contribution (row !! key)) data.
Proof.
  induction data as [| row data IH]; [reflexivity |].
  cbn [keptValues flat_map]. rewrite <- IH, contribution_spec.
  now destruct (isNaN (Number (row !! key))).
Qed.

(** C9.  The mean, the standard deviation, the min, the max and the count
    they divide by are those of the list that holds 0 for each null cell, 1
    for each [true], 0 for each [false], the number of each numeric cell or
    numeric text, and nothing for a cell exactly when its coercion is NaN (a
    text that is no number, an absent field, a NaN): whenever the engine
    accepts the call, [calculateStats] returns the arithmetic mean and the
    population standard deviation of that list, and as min and max two of
    its values that bound them all. *)
Theorem calculateStats_coercion (acceptsArguments : nat -> bool)
    (data : list DataRow) (key : string) :
  let values := flat_map (fun row : DataRow => contribution (row !! key)) data in
  let call := StatsCalls.calculateStats acceptsArguments data key in
  (forall cell : option value,
     contribution cell = [] <-> isNaN (Number cell) = true)
  /\ (values = [] -> call = Normal zeroStats)
  /\ (values <> [] -> acceptsArguments (length values) = true ->
      exists st : FieldStats,
        call = Normal st
        /\ mean st = (totalFrom 0 values / of_length (length values))%float
        /\ statisticsOf values st).
Proof.
  cbv zeta. rewrite <- keptValues_contribution.
  destruct (calculateStats_cases acceptsArguments data key) as (H0 & H1 & _).
  cbv zeta in *. repeat split.
  - rewrite contribution_spec. now destruct (isNaN (Number cell)).
  - rewrite contribution_spec. intros ->. reflexivity.
  - exact H0.
  - intros Hne Hacc. destruct (H1 Hne Hacc) as (st & Hst & Hstat).
    exists st. repeat split; try apply Hstat; auto.
Qed.

(** Rows with a text, a missing field, null and [true] in column [a]: the
    statistics are those of the two values 0 and 1. *)
Example calculateStats_mixed_cells :
  StatsCalls.calculateStats (StatsCalls.upTo 65536)
    [ {[ "a" := VStr "x" ]}; {[ "b" := VNum 1 ]};
      {[ "a" := VNull ]}; {[ "a" := VBool true ]} ] "a"
  = Normal (mkStats 0.5 0.5 0 1).
Proof. vm_compute. reflexivity. Qed.

(** The population standard deviation of 2, 4, 4, 4, 5, 5, 7, 9 is 2. *)
Example calculateStats_population :
  StatsCalls.calculateStats (StatsCalls.upTo 65536)
    (List.map (fun v => {[ "a" := VNum v ]}) [2; 4; 4; 4; 5; 5; 7; 9]%float) "a"
  = Normal (mkStats 5 2 2 9).
Proof. vm_compute. reflexivity. Qed.

End StatsClaims.

(** ** Claims about [detectOutliers] *)

Module OutlierClaims.
Import JS Stats StatsFacts CallFacts.

(** On a call that returns, [detectOutliers] gives exactly one scored row
    per input row, in the same order (the i-th scored row is the one built
    from the i-th input row, so the lengths agree), and [outlierIndices] is a
    strictly ascending list of positions below the number of rows. *)
Lemma detectOutliers_order_length (data : list DataRow) (xKey yKey : string)
    (threshold : float) :
  let r := detectOutliers data xKey yKey threshold in
  length (processedData r) = length data
  /\ (forall i : nat,
        processedData r !! i =
        scoredRow (calculateStats data xKey) (calculateStats data yKey)
          xKey yKey threshold <$> data !! i)
  /\ StronglySorted lt (outlierIndices r)
  /\ Forall (fun i => (i < length data)%nat) (outlierIndices r).
Proof.
  cbv zeta. rewrite detectOutliers_unfold. simpl. repeat split.
  - apply length_map.
  - intros i. apply list_lookup_fmap.
  - apply flaggedFrom_sorted.
  - apply Forall_forall. intros i Hi.
    apply elem_of_flaggedFrom in Hi as (j & row & -> & Hj & _).
    apply lookup_lt_Some in Hj. lia.
Qed.

(** A column of 130000 numbers. *)
Definition longColumn : list DataRow :=
  repeat ({[ "x" := VNum 1; "y" := VNum 2 ]} : DataRow) (Z.to_nat 130000).

(** C8, the code at a failing input.  On an engine that accepts at most
    65536 arguments per call, [detectOutliers] on 130000 rows with a number
    in column [x] returns nothing: [calculateStats] throws a [RangeError] at
    [Math.min(...values)], before the loop has scored a row.  So it is on
    every engine for every column the engine does not accept; where both
    columns are accepted the call returns, one scored row per row. *)
Theorem detectOutliers_throws_on_long_column :
  length longColumn = Z.to_nat 130000
  /\ length (numericValues longColumn "x") = Z.to_nat 130000
  /\ StatsCalls.upTo 65536 (Z.to_nat 130000) = false
  /\ StatsCalls.detectOutliers (StatsCalls.upTo 65536) longColumn "x" "y"
       defaultThreshold
     = Throw "RangeError"
  /\ (forall (acceptsArguments : nat -> bool) (data : list DataRow)
             (xKey yKey : string) (threshold : float),
        fits acceptsArguments data xKey && fits acceptsArguments data yKey
        = false ->
        StatsCalls.detectOutliers acceptsArguments data xKey yKey threshold
        = Throw "RangeError")
  /\ (forall (acceptsArguments : nat -> bool) (data : list DataRow)
             (xKey yKey : string) (threshold : float),
        fits acceptsArguments data xKey && fits acceptsArguments data yKey
        = true ->
        exists r : Result,
          StatsCalls.detectOutliers acceptsArguments data xKey yKey threshold
          = Normal r
          /\ length (processedData r) = length data
          /\ StronglySorted lt (outlierIndices r)
          /\ Forall (fun i => (i < length data)%nat) (outlierIndices r)).
Proof.
  assert (Hvalues : numericValues longColumn "x"
                    = repeat 1%float (Z.to_nat 130000)).
  { unfold longColumn. now rewrite numericValues_repeat. }
  assert (Hfits : fits (StatsCalls.upTo 65536) longColumn "x" = false).
  { unfold fits. rewrite Hvalues, repeat_length. reflexivity. }
  split; [apply repeat_length |].
  split; [rewrite Hvalues; apply repeat_length |].
  split; [reflexivity |].
  split; [rewrite detectOutliers_outcome, Hfits; reflexivity |].
  split.
  - intros acceptsArguments data xKey yKey threshold H.
    now rewrite detectOutliers_outcome, H.
  - intros acceptsArguments data xKey yKey threshold H.
    rewrite detectOutliers_outcome, H. eexists. split; [reflexivity |].
    destruct (detectOutliers_order_length data xKey yKey threshold)
      as (H1 & _ & H3 & H4).
    auto.
Qed.

(** The z-score of a coerced value as the specification words it. *)
Definition zScoreOf (x : float) (st : FieldStats) : float :=
  if negb (isNaN x) && negb (stdDev st =? 0)%float
  then ((x - mean st) / stdDev st)%float
  else 0%float.

(** C1, as amended.  Row [i] is flagged exactly when |zScoreX| > t, or
    |zScoreY| > t, or sqrt(zScoreX^2 + zScoreY^2) > t * 1.4, where a z-score
    is (value - mean) / stdDev when the value coerces to a number and the
    computed stdDev is nonzero, and 0 otherwise; in particular an axis whose
    computed standard deviation is 0 gives z-score 0 for every value. *)
Theorem detectOutliers_flags (data : list DataRow) (xKey yKey : string)
    (threshold : float) (i : nat) :
  let xStats := calculateStats data xKey in
  let yStats := calculateStats data yKey in
  (i ∈ outlierIndices (detectOutliers data xKey yKey threshold) <->
   exists row : DataRow, data !! i = Some row /\
     let zScoreX := zScoreOf (Number (row !! xKey)) xStats in
     let zScoreY := zScoreOf (Number (row !! yKey)) yStats in
     (threshold <? abs zScoreX)%float = true
     \/ (threshold <? abs zScoreY)%float = true
     \/ (threshold * 0x1.6666666666666p+0
         <? PrimFloat.sqrt (zScoreX * zScoreX + zScoreY * zScoreY))%float = true)
  /\ (forall x : float, (stdDev xStats =? 0)%float = true ->
        zScore x xStats = 0%float).
Proof.
  cbv zeta. split.
  - rewrite detectOutliers_unfold. simpl. rewrite elem_of_flaggedFrom.
    unfold rowFlagged, flagged, zDistance, pow2, jointFactor.
    change zScoreOf with zScore.
    split.
    + intros (j & row & -> & Hj & Hf). exists row. split; [exact Hj |].
      apply orb_true_iff in Hf as [Hf | Hf]; [| now right; right].
      apply orb_true_iff in Hf as [Hf | Hf]; [now left | now right; left].
    + intros (row & Hi & Hf). exists i, row. repeat split; auto.
      rewrite !orb_true_iff. tauto.
  - intros x H. unfold zScore. rewrite H. now rewrite andb_false_r.
Qed.

Definition constantRow : DataRow := {[ "a" := VNum 0x1.999999999999ap-4 ]}.

(** C1, the counterexample.  Three rows whose column [a] holds the same
    number 0.1: the sum 0.1 + 0.1 + 0.1 is rounded, the computed mean is not
    0.1, the computed standard deviation is not 0, and every scored row
    carries z-score -1 on that axis, not 0. *)
Lemma constant_column_zscore_nonzero :
  let data := [constantRow; constantRow; constantRow] in
  let r := detectOutliers data "a" "b" defaultThreshold in
  (forall row : DataRow, row ∈ data -> row !! "a" = constantRow !! "a")
  /\ ~ (forall (i : nat) (p : OutlierDataPoint),
          processedData r !! i = Some p -> p !! "zScoreX" = Some (VNum 0)).
Proof.
  cbv zeta. split.
  - intros row Hrow. rewrite !elem_of_cons in Hrow.
    destruct Hrow as [-> | [-> | [-> | Hrow]]]; try reflexivity.
    inversion Hrow.
  - intros H.
    assert (Hp : processedData
                   (detectOutliers [constantRow; constantRow; constantRow]
                      "a" "b" defaultThreshold) !! 0%nat
                 = Some (scoredRow
                           (calculateStats [constantRow; constantRow; constantRow] "a")
                           (calculateStats [constantRow; constantRow; constantRow] "b")
                           "a" "b" defaultThreshold constantRow)).
    { rewrite detectOutliers_unfold. reflexivity. }
    specialize (H _ _ Hp).
    apply (f_equal (fun c => match c with
                             | Some (VNum z) => (z =? 0)%float
                             | _ => false
                             end)) in H.
    vm_compute in H. discriminate H.
Qed.

(** A constant column whose sum is exact: three rows holding 5 have computed
    standard deviation 0 and z-score 0. *)
Example constant_column_exact_sum :
  let data := List.map (fun v => {[ "a" := VNum v ]}) [5; 5; 5]%float in
  stdDev (calculateStats data "a") = 0%float
  /\ List.map (fun p : OutlierDataPoint => p !! "zScoreX")
       (processedData (detectOutliers data "a" "b" defaultThreshold))
     = [Some (VNum 0); Some (VNum 0); Some (VNum 0)].
Proof. cbv zeta. split; vm_compute; reflexivity. Qed.

(** C5, as amended.  The scored row built from an input row is that row with
    [isOutlier], [zScoreX] and [zScoreY] set and then the xField and yField
    cells overwritten by their coerced numeric form: every other cell is
    unchanged, and a cell whose coercion is NaN (an absent cell, a text that
    is no number) appears as NaN in the scored view. *)
Theorem scored_row_cells (data : list DataRow) (xKey yKey : string)
    (threshold : float) (i : nat) (row : DataRow) :
  data !! i = Some row ->
  exists p : OutlierDataPoint,
    processedData (detectOutliers data xKey yKey threshold) !! i = Some p
    /\ (exists (isOutlier : bool) (zScoreX zScoreY : float),
          p = <[yKey := VNum (Number (row !! yKey))]>
                (<[xKey := VNum (Number (row !! xKey))]>
                   (<["zScoreY" := VNum zScoreY]>
                      (<["zScoreX" := VNum zScoreX]>
                         (<["isOutlier" := VBool isOutlier]> row)))))
    /\ p !! xKey = Some (VNum (Number (row !! xKey)))
    /\ p !! yKey = Some (VNum (Number (row !! yKey)))
    /\ (forall k : string,
          k <> xKey -> k <> yKey ->
          k <> "isOutlier" -> k <> "zScoreX" -> k <> "zScoreY" ->
          p !! k = row !! k)
    /\ (isNaN (Number (row !! xKey)) = true -> p !! xKey = Some (VNum nan))
    /\ (isNaN (Number (row !! yKey)) = true -> p !! yKey = Some (VNum nan)).
Proof.
  intros Hrow. eexists. split.
  { rewrite detectOutliers_unfold. simpl.
    change (List.map ?f data) with (f <$> data).
    rewrite list_lookup_fmap, Hrow. reflexivity. }
  unfold scoredRow. split; [eauto |].
  assert (Hxv : <[yKey := VNum (Number (row !! yKey))]>
                  (<[xKey := VNum (Number (row !! xKey))]>
                     (<["zScoreY" := VNum (zScore (Number (row !! yKey))
                                             (calculateStats data yKey))]>
                        (<["zScoreX" := VNum (zScore (Number (row !! xKey))
                                                (calculateStats data xKey))]>
                           (<["isOutlier" :=
                                VBool (rowFlagged (calculateStats data xKey)
                                         (calculateStats data yKey) xKey yKey
                                         threshold row)]> row)))) !! xKey
                = Some (VNum (Number (row !! xKey)))).
  { destruct (decide (xKey = yKey)) as [<- | Hne].
    - apply lookup_insert_eq.
    - rewrite lookup_insert_ne by congruence. apply lookup_insert_eq. }
  repeat split.
  - exact Hxv.
  - apply lookup_insert_eq.
  - intros k H1 H2 H3 H4 H5. now rewrite !lookup_insert_ne by congruence.
  - intros Hn. rewrite Hxv. now rewrite (FloatFacts.is_nan_eq _ Hn).
  - intros Hn. rewrite lookup_insert_eq. now rewrite (FloatFacts.is_nan_eq _ Hn).
Qed.

Definition textRow : DataRow := {[ "a" := VStr "abc"; "b" := VNum 2 ]}.

Lemma scored_row_cells_witness :
  [textRow] !! 0%nat = Some textRow
  /\ exists p : OutlierDataPoint,
       processedData (detectOutliers [textRow] "a" "b" defaultThreshold) !! 0%nat
       = Some p
       /\ (exists (isOutlier : bool) (zScoreX zScoreY : float),
             p = <["b" := VNum (Number (textRow !! "b"))]>
                   (<["a" := VNum (Number (textRow !! "a"))]>
                      (<["zScoreY" := VNum zScoreY]>
                         (<["zScoreX" := VNum zScoreX]>
                            (<["isOutlier" := VBool isOutlier]> textRow)))))
       /\ p !! "a" = Some (VNum (Number (textRow !! "a")))
       /\ p !! "b" = Some (VNum (Number (textRow !! "b")))
       /\ (forall k : string,
             k <> "a" -> k <> "b" ->
             k <> "isOutlier" -> k <> "zScoreX" -> k <> "zScoreY" ->
             p !! k = textRow !! k)
       /\ (isNaN (Number (textRow !! "a")) = true -> p !! "a" = Some (VNum nan))
       /\ (isNaN (Number (textRow !! "b")) = true -> p !! "b" = Some (VNum nan)).
Proof.
  split; [reflexivity |].
  apply (scored_row_cells [textRow] "a" "b" defaultThreshold 0 textRow).
  reflexivity.
Defined.

(** C5, the counterexample.  The cell [a] of the row holds the text "abc";
    in the scored row it is NaN, not the number 0. *)
Lemma non_numeric_cell_scored_nan :
  let r := detectOutliers [textRow] "a" "b" defaultThreshold in
  is_number (textRow !! "a") = false
  /\ ~ (forall p : OutlierDataPoint,
          processedData r !! 0%nat = Some p -> p !! "a" = Some (VNum 0)).
Proof.
  cbv zeta. split; [reflexivity |]. intros H.
  assert (Hp : processedData (detectOutliers [textRow] "a" "b" defaultThreshold)
                 !! 0%nat
               = Some (scoredRow (calculateStats [textRow] "a")
                         (calculateStats [textRow] "b") "a" "b"
                         defaultThreshold textRow)).
  { rewrite detectOutliers_unfold. reflexivity. }
  specialize (H _ Hp).
  apply (f_equal (fun c => match c with
                           | Some (VNum z) => isNaN z
                           | _ => false
                           end)) in H.
  vm_compute in H. discriminate H.
Qed.

(** Off the key [isOutlier], the flag of the scored row and the index list
    agree. *)
Lemma isOutlier_consistent_off_collision (data : list DataRow)
    (xKey yKey : string) (threshold : float) (i : nat) (p : OutlierDataPoint) :
  xKey <> "isOutlier" -> yKey <> "isOutlier" ->
  processedData (detectOutliers data xKey yKey threshold) !! i = Some p ->
  (p !! "isOutlier" = Some (VBool true) <->
   i ∈ outlierIndices (detectOutliers data xKey yKey threshold)).
Proof.
  intros Hx Hy. rewrite detectOutliers_unfold. simpl.
  change (List.map ?f data) with (f <$> data).
  rewrite list_lookup_fmap. destruct (data !! i) as [row |] eqn:Hrow;
    [| discriminate].
  simpl. intros [= <-]. unfold scoredRow.
  rewrite !lookup_insert_ne by congruence. rewrite lookup_insert_eq.
  rewrite elem_of_flaggedFrom. split.
  - intros [= Hf]. exists i, row. auto.
  - intros (j & row' & Hj & Hrow' & Hf). simpl in Hj. subst j.
    rewrite Hrow in Hrow'. injection Hrow' as <-. now rewrite Hf.
Qed.

Definition flagRow (v : float) : DataRow :=
  {[ "isOutlier" := VNum v; "y" := VNum 1 ]}.

Definition flagData : list DataRow := flagRow 0 :: repeat (flagRow 5) 7.

(** C10, the code at a failing input.  The dataset has a numeric column
    named [isOutlier], selected as the x axis.  Row 0 is the only flagged
    row, yet its scored [isOutlier] cell is the number 0 (the coerced x
    value overwrites the flag), and the unflagged row 1 carries 5. *)
Theorem isOutlier_overwritten_by_axis :
  let r := detectOutliers flagData "isOutlier" "y" defaultThreshold in
  outlierIndices r = [0%nat]
  /\ (processedData r !! 0%nat) ≫= (fun p => p !! "isOutlier") = Some (VNum 0)
  /\ (processedData r !! 1%nat) ≫= (fun p => p !! "isOutlier") = Some (VNum 5).
Proof. cbv zeta. repeat split; vm_compute; reflexivity. Qed.

(** A row flagged at a threshold is flagged at every lower threshold. *)
Lemma flagged_antitone (zScoreX zScoreY t1 t2 : float) :
  (t1 <=? t2)%float = true ->
  flagged zScoreX zScoreY t2 = true -> flagged zScoreX zScoreY t1 = true.
Proof.
  intros Ht. unfold flagged. rewrite !orb_true_iff.
  assert (Hj : (t1 * jointFactor <=? t2 * jointFactor)%float = true).
  { apply (Rounding.leb_mul_mono t1 t2 jointFactor 6305039478318694 (-52));
      [reflexivity | lia | exact Ht]. }
  intros [[H | H] | H].
  - left; left. exact (Rounding.leb_ltb_trans _ _ _ Ht H).
  - left; right. exact (Rounding.leb_ltb_trans _ _ _ Ht H).
  - right. exact (Rounding.leb_ltb_trans _ _ _ Hj H).
Qed.

Lemma flaggedFrom_antitone (xStats yStats : FieldStats) (xKey yKey : string)
    (t1 t2 : float) (l : list DataRow) :
  (t1 <=? t2)%float = true ->
  forall index : nat,
    flaggedFrom xStats yStats xKey yKey t2 index l
      `sublist_of` flaggedFrom xStats yStats xKey yKey t1 index l.
Proof.
  intros Ht. induction l as [| row l IH]; intros index; simpl.
  - constructor.
  - destruct (rowFlagged xStats yStats xKey yKey t2 row) eqn:H2.
    + unfold rowFlagged in *. rewrite (flagged_antitone _ _ _ _ Ht H2).
      apply sublist_skip, IH.
    + destruct (rowFlagged xStats yStats xKey yKey t1 row).
      * apply sublist_cons, IH.
      * apply IH.
Qed.

(** C2.  Threshold monotonicity: for a fixed row list and axis pair and
    thresholds t1 <= t2, the indices flagged at t2 are a sublist of those
    flagged at t1: every index flagged at t2 is flagged at t1, and the
    number of flagged indices does not grow. *)
Theorem threshold_monotone (data : list DataRow) (xKey yKey : string)
    (t1 t2 : float) :
  (t1 <=? t2)%float = true ->
  let low := outlierIndices (detectOutliers data xKey yKey t1) in
  let high := outlierIndices (detectOutliers data xKey yKey t2) in
  high `sublist_of` low
  /\ (forall i : nat, i ∈ high -> i ∈ low)
  /\ (length high <= length low)%nat.
Proof.
  intros Ht. cbv zeta. rewrite !detectOutliers_unfold. simpl.
  pose proof (flaggedFrom_antitone (calculateStats data xKey)
                (calculateStats data yKey) xKey yKey t1 t2 data Ht 0%nat) as Hs.
  repeat split.
  - exact Hs.
  - intros i Hi. eapply elem_of_sublist; eauto.
  - apply sublist_length, Hs.
Qed.

Definition spreadData : list DataRow :=
  List.map (fun v => {[ "x" := VNum v; "y" := VNum 1 ]})
    [0; 5; 5; 5; 5; 5; 5; 5; 9]%float.

Lemma threshold_monotone_witness :
  (1.5 <=? 2)%float = true
  /\ outlierIndices (detectOutliers spreadData "x" "y" 2)
       `sublist_of` outlierIndices (detectOutliers spreadData "x" "y" 1.5)
  /\ (forall i : nat,
        i ∈ outlierIndices (detectOutliers spreadData "x" "y" 2) ->
        i ∈ outlierIndices (detectOutliers spreadData "x" "y" 1.5))
  /\ (length (outlierIndices (detectOutliers spreadData "x" "y" 2))
      <= length (outlierIndices (detectOutliers spreadData "x" "y" 1.5)))%nat.
Proof.
  split; [reflexivity |].
  apply (threshold_monotone spreadData "x" "y" 1.5 2). reflexivity.
Defined.

(** On that dataset the inclusion is strict: row 8 is flagged at 1.5 only. *)
Example spread_thresholds_strict :
  outlierIndices (detectOutliers spreadData "x" "y" 1.5) = [0%nat; 8%nat]
  /\ outlierIndices (detectOutliers spreadData "x" "y" 2) = [0%nat].
Proof. split; vm_compute; reflexivity. Qed.

End OutlierClaims.

(** ** Claims about the cell edit *)

Module EditorClaims.
Import JS DataEditor.

Lemma indexOf_Some (l : list RowObject) (row : RowObject) :
  forall i : nat,
    indexOf l row = Some i ->
    exists r : RowObject, l !! i = Some r /\ oid r = oid row.
Proof.
  induction l as [| r l IH]; intros i; simpl; [discriminate |].
  destruct (Nat.eqb (oid r) (oid row)) eqn:E.
  - intros [= <-]. exists r. split; [reflexivity | now apply Nat.eqb_eq].
  - destruct (indexOf l row) as [j |]; [| discriminate].
    intros [= <-]. apply (IH j eq_refl).
Qed.

Lemma indexOf_elem (l : list RowObject) (row : RowObject) :
  row ∈ l -> is_Some (indexOf l row).
Proof.
  induction l as [| r l IH]; intros H; [inversion H |]. simpl.
  destruct (Nat.eqb (oid r) (oid row)) eqn:E; [eauto |].
  apply elem_of_cons in H as [-> | H].
  - now rewrite Nat.eqb_refl in E.
  - destruct (IH H) as [j ->]. simpl. eauto.
Qed.

Lemma slice_elem {A} (l : list A) (from to : Z) (x : A) :
  x ∈ slice l from to -> x ∈ l.
Proof.
  unfold slice. intros H.
  eapply elem_of_sublist; [exact H |].
  etransitivity; [apply sublist_take | apply sublist_drop].
Qed.

Lemma currentData_elem (f : float -> string) (m : string -> string)
    (st : State) (row : RowObject) :
  row ∈ currentData f m st -> row ∈ localData st.
Proof.
  unfold currentData, filteredData. intros H. apply slice_elem in H.
  apply list_elem_of_In, filter_In in H as [H _]. now apply list_elem_of_In.
Qed.

(** The stored value as the specification words it, by the type of the
    original cell. *)
Definition storedValue (original : option value) (text : string) : value :=
  match original with
  | Some (VNum _) =>
      if isNaN (StringToNumber text) then VStr text
      else VNum (StringToNumber text)
  | Some (VBool _) => VBool (bool_decide (toLowerCase text = "true"))
  | _ => VStr text
  end.

Lemma finalValue_storedValue (original : option value) (text : string) :
  finalValue original text = storedValue original text.
Proof.
  unfold finalValue.
  destruct original as [[| b | n | s] |]; simpl; try reflexivity.
  now destruct (isNaN (StringToNumber text)).
Qed.

(** C3, as amended.  On [saveEdit] of a cell of the visible page, the cell
    of the edited row holds: for a numeric original, the number the text
    denotes when it denotes one ("42" stores 42) and the raw text otherwise
    ("abc" stores "abc"); for a boolean original, [true] exactly when the
    lower-cased text is "true" (so "True" stores [true], and "1" stores
    [false]); for any other original, the raw text; and the updated rows are
    handed to [onUpdateData]. *)
Theorem saveEdit_stores (NumberToString : float -> string)
    (MemberToString : string -> string) (st : State)
    (rowIndex : nat) (colKey : string) (row : RowObject) :
  editingCell st = Some (rowIndex, colKey) ->
  currentData NumberToString MemberToString st !! rowIndex = Some row ->
  (exists (globalIndex : nat) (target : RowObject),
     indexOf (localData st) row = Some globalIndex
     /\ localData st !! globalIndex = Some target
     /\ oid target = oid row
     /\ localData (saveEdit NumberToString MemberToString st).1 !! globalIndex
          ≫= (fun r => fields r !! colKey)
        = Some (storedValue (fields target !! colKey) (editValue st))
     /\ (saveEdit NumberToString MemberToString st).2
        = Some (localData (saveEdit NumberToString MemberToString st).1))
  /\ (forall n : float, storedValue (Some (VNum n)) "42" = VNum 42)
  /\ (forall n : float, storedValue (Some (VNum n)) "abc" = VStr "abc")
  /\ (forall b : bool, storedValue (Some (VBool b)) "True" = VBool true)
  /\ (forall b : bool, storedValue (Some (VBool b)) "1" = VBool false).
Proof.
  intros Hcell Hrow. split; [| repeat split; intros; vm_compute; reflexivity].
  assert (Hin : row ∈ localData st).
  { apply (currentData_elem NumberToString MemberToString). eapply list_elem_of_lookup_2, Hrow. }
  destruct (indexOf_elem _ _ Hin) as [g Hg].
  destruct (indexOf_Some _ _ _ Hg) as (target & Htarget & Hoid).
  exists g, target. unfold saveEdit.
  rewrite Hcell, Hrow. simpl. rewrite Hg, Htarget. simpl.
  repeat split; auto.
  rewrite list_lookup_insert_eq by (eapply lookup_lt_Some, Htarget).
  simpl. rewrite lookup_insert_eq. now rewrite finalValue_storedValue.
Qed.

Definition editRow : RowObject :=
  mkRow 0 {[ "n" := VNum 7; "b" := VBool false ]}.

Definition editState (colKey text : string) : State :=
  mkState ["n"; "b"] 1 "" (Some (0%nat, colKey)) text [editRow].

(** Stand-ins for the runtime's two conversions to text. *)
Definition noText (n : float) : string := "".

Definition nativeText (member : string) : string :=
  if String.eqb member "__proto__" then "[object Object]"
  else "function "
       ++ (if String.eqb member "constructor" then "Object" else member)
       ++ "() { [native code] }".

Lemma saveEdit_stores_witness :
  (exists (globalIndex : nat) (target : RowObject),
     indexOf (localData (editState "n" "42")) editRow = Some globalIndex
     /\ localData (editState "n" "42") !! globalIndex = Some target
     /\ oid target = oid editRow
     /\ localData (saveEdit noText nativeText (editState "n" "42")).1 !! globalIndex
          ≫= (fun r => fields r !! "n")
        = Some (storedValue (fields target !! "n") "42")
     /\ (saveEdit noText nativeText (editState "n" "42")).2
        = Some (localData (saveEdit noText nativeText (editState "n" "42")).1))
  /\ (forall n : float, storedValue (Some (VNum n)) "42" = VNum 42)
  /\ (forall n : float, storedValue (Some (VNum n)) "abc" = VStr "abc")
  /\ (forall b : bool, storedValue (Some (VBool b)) "True" = VBool true)
  /\ (forall b : bool, storedValue (Some (VBool b)) "1" = VBool false).
Proof.
  apply (saveEdit_stores noText nativeText (editState "n" "42") 0 "n" editRow);
    reflexivity.
Defined.

(** C3, the counterexample.  The cell [b] holds [false]; committing the text
    "True" stores [true], not [false]. *)
Lemma saveEdit_True_text_stores_true :
  let st' := (saveEdit noText nativeText (editState "b" "True")).1 in
  fields editRow !! "b" = Some (VBool false)
  /\ ~ (localData st' !! 0%nat ≫= (fun r => fields r !! "b")
        = Some (VBool false)).
Proof. cbv zeta. split; [reflexivity |]. vm_compute. discriminate. Qed.

End EditorClaims.

(** ** Claims about the insight request *)

Module InsightClaims.
Import JS Stats Gemini Dashboard.

(** C7, as amended.  The promise of [analyzeOutliersWithGemini] is never
    rejected: it resolves with a value.  With the API key missing no prompt
    is sent and the value is the fixed missing-key insight.  With the key
    present one prompt is sent, and the value is the fixed error insight when
    the collaborator's call throws, when its response has no text, or when
    the text is not JSON; a text that is JSON is returned as [JSON.parse]
    gives it, whatever it holds. *)
Theorem analyzeOutliers_never_throws (apiKey : option string)
    (generateContent : Prompt -> completion Response)
    (JSON_parse : string -> completion json)
    (dataSample : list DataRow) (columns : list string)
    (outlierIndices : list nat) (xAxis yAxis : string) :
  let call := analyzeOutliersWithGemini apiKey JSON_parse dataSample columns
                outlierIndices xAxis yAxis in
  let promise := settle generateContent call in
  (exists insight : json, promise = Normal insight)
  /\ (falsy apiKey = true ->
      sent call = [] /\ promise = Normal missingKeyInsight)
  /\ (falsy apiKey = false ->
      exists prompt : Prompt,
        sent call = [prompt]
        /\ (forall error : string,
              generateContent prompt = Throw error ->
              promise = Normal errorInsight)
        /\ (forall response : Response,
              generateContent prompt = Normal response ->
              falsy (text response) = true ->
              promise = Normal errorInsight)
        /\ (forall (result error : string),
              generateContent prompt = Normal (mkResponse (Some result)) ->
              result <> "" -> JSON_parse result = Throw error ->
              promise = Normal errorInsight)
        /\ (forall (result : string) (parsed : json),
              generateContent prompt = Normal (mkResponse (Some result)) ->
              result <> "" -> JSON_parse result = Normal parsed ->
              promise = Normal parsed)).
Proof.
  cbv zeta. unfold analyzeOutliersWithGemini.
  destruct (falsy apiKey) eqn:Hkey; cbn [settle sent].
  - repeat split; eauto. discriminate.
  - set (prompt := mkPrompt _ _ _ _ _).
    assert (Htext : forall result : string,
               result <> "" -> falsy (Some result) = false).
    { intros result Hne. cbn [falsy]. now apply String.eqb_neq. }
    split; [| split; [discriminate |]].
    + unfold mbind, completion_bind.
      destruct (generateContent prompt) as [response | e]; simpl; eauto.
      destruct (falsy (text response)); simpl; eauto.
      destruct (JSON_parse _); simpl; eauto.
    + intros _. exists prompt. unfold mbind, completion_bind.
      split; [reflexivity |]. repeat split.
      * intros error ->. reflexivity.
      * intros response -> Hfalsy. cbn [try_catch]. now rewrite Hfalsy.
      * intros result error -> Hne Herr. cbn [text].
        rewrite (Htext result Hne).
        change (default "" (Some result)) with result. now rewrite Herr.
      * intros result parsed -> Hne Hparsed. cbn [text].
        rewrite (Htext result Hne).
        change (default "" (Some result)) with result. now rewrite Hparsed.
Qed.

(** [JSON.parse] on the text [null]; the counterexample applies it to no
    other text. *)
Definition parseNullText (s : string) : completion json :=
  if String.eqb s "null" then Normal JNull else Throw "SyntaxError".

(** C7, the counterexample.  The collaborator answers with the text [null],
    which is JSON but no insight: the call returns the parsed [null], not a
    fallback insight object. *)
Lemma unusable_response_is_returned :
  let generateContent := fun _ : Prompt => Normal (mkResponse (Some "null")) in
  let promise :=
    settle generateContent
      (analyzeOutliersWithGemini (Some "key") parseNullText [] ["x"; "y"] []
         "x" "y") in
  promise = Normal JNull
  /\ promise <> Normal errorInsight
  /\ promise <> Normal missingKeyInsight.
Proof. cbv zeta. repeat split; vm_compute; congruence. Qed.

Definition sampleRow (x y : float) : DataRow :=
  {[ "x" := VNum x; "y" := VNum y ]}.

Definition sampleDataset : Dataset :=
  mkDataset "sample" ["x"; "y"]
    [sampleRow 1 2; sampleRow 2 1; sampleRow 3 3].

Definition lateInsight : json := JObj [("summary", JStr "late")].

(** C6, the code at a failing trace.  An insight is requested at threshold
    2.5; the threshold is moved to 3 while the request is outstanding (which
    clears the insight); the response then arrives and is stored as the
    displayed insight, although the inputs it was issued under are no longer
    the current ones. *)
Theorem late_response_is_displayed :
  let issued := run (mount sampleDataset) [ClickGenerate] in
  let moved := step issued (SetThreshold 3) in
  let final := step moved (Resolved 0 lateInsight) in
  (issuedUnder <$> inFlight moved !! 0%nat) = Some (inputs issued)
  /\ inThreshold (inputs issued) = defaultThreshold
  /\ threshold moved = 3%float
  /\ aiInsight moved = None
  /\ aiInsight final = Some lateInsight
  /\ threshold final = 3%float.
Proof. cbv zeta. repeat split; vm_compute; reflexivity. Qed.

(** Whatever the current inputs, a completing request stores its result. *)
Lemma resolved_stores_result (st : State) (i : nat) (request : Request)
    (result : json) :
  inFlight st !! i = Some request ->
  aiInsight (step st (Resolved i result)) = Some result.
Proof. intros H. simpl. now rewrite H. Qed.

End InsightClaims.

(** ** Further properties of [src/utils/stats.ts] *)

Module StatsExtras.
Import JS Stats StatsFacts Rounding FloatOrder Extrema.

(** X1.  When some value of the column coerces to a number, the [min] and
    [max] of [calculateStats] are values of the column (coerced), and every
    value used lies between them. *)
Theorem calculateStats_min_max (data : list DataRow) (key : string) :
  numericValues data key <> [] ->
  let st := calculateStats data key in
  min st ∈ numericValues data key
  /\ max st ∈ numericValues data key
  /\ (forall v : float, v ∈ numericValues data key ->
        (min st <=? v)%float = true /\ (v <=? max st)%float = true).
Proof.
  intros Hne. cbv zeta. unfold calculateStats.
  pose proof (numericValues_not_nan data key) as Hall.
  destruct (numericValues data key) as [| x values] eqn:E; [congruence |].
  cbn [length Nat.eqb statsOfValues min max]. unfold Math_min, Math_max.
  destruct (fold_min2 (x :: values) infinity eq_refl Hall)
    as (_ & Hin1 & _ & Hmin).
  destruct (fold_max2 (x :: values) neg_infinity eq_refl Hall)
    as (_ & Hin2 & _ & Hmax).
  cbv zeta in *. repeat split.
  - destruct Hin1 as [Heq | Hin1]; [| exact Hin1].
    specialize (Hmin x (list_elem_of_here _ _)). rewrite Heq in *.
    apply leb_key in Hmin as (_ & _ & Hmin).
    rewrite (key_infinity x Hmin). apply list_elem_of_here.
  - destruct Hin2 as [Heq | Hin2]; [| exact Hin2].
    specialize (Hmax x (list_elem_of_here _ _)). rewrite Heq in *.
    apply leb_key in Hmax as (_ & _ & Hmax).
    rewrite (key_neg_infinity x Hmax). apply list_elem_of_here.
  - now apply Hmin.
  - now apply Hmax.
Qed.

Definition rangeData : list DataRow :=
  [ {[ "a" := VNum 3 ]}; {[ "a" := VStr "x" ]}; {[ "a" := VNum (-0) ]};
    {[ "a" := VNull ]}; {[ "a" := VStr "7.5" ]} ].

Lemma calculateStats_min_max_witness :
  numericValues rangeData "a" <> []
  /\ min (calculateStats rangeData "a") ∈ numericValues rangeData "a"
  /\ max (calculateStats rangeData "a") ∈ numericValues rangeData "a"
  /\ (forall v : float, v ∈ numericValues rangeData "a" ->
        (min (calculateStats rangeData "a") <=? v)%float = true
        /\ (v <=? max (calculateStats rangeData "a"))%float = true).
Proof.
  split; [vm_compute; discriminate |].
  apply (calculateStats_min_max rangeData "a"). vm_compute. discriminate.
Defined.

(** With both z-scores 0 no test of the loop passes at a threshold that is
    not negative. *)
Lemma flagged_zero (threshold : float) :
  (0 <=? threshold)%float = true -> flagged 0 0 threshold = false.
Proof.
  intros Ht. unfold flagged.
  change (abs 0) with 0%float. change (zDistance 0 0) with 0%float.
  rewrite (leb_ltb_false _ _ Ht). cbn [orb].
  apply leb_ltb_false.
  change 0%float with (0 * jointFactor)%float at 1.
  apply (leb_mul_mono 0 threshold jointFactor 6305039478318694 (-52));
    [reflexivity | lia | exact Ht].
Qed.

Lemma zScore_neutral (val : float) (st : FieldStats) :
  isNaN val = true \/ (stdDev st =? 0)%float = true -> zScore val st = 0%float.
Proof.
  intros [H | H]; unfold zScore; rewrite H; [reflexivity |].
  now rewrite andb_false_r.
Qed.

(** X3.  At a threshold that is not negative, a row is never flagged when on
    each axis its value does not coerce to a number or the computed standard
    deviation of the column is 0. *)
Theorem neutral_row_not_flagged (data : list DataRow) (xKey yKey : string)
    (threshold : float) (i : nat) (row : DataRow) :
  (0 <=? threshold)%float = true ->
  data !! i = Some row ->
  isNaN (Number (row !! xKey)) = true
  \/ (stdDev (calculateStats data xKey) =? 0)%float = true ->
  isNaN (Number (row !! yKey)) = true
  \/ (stdDev (calculateStats data yKey) =? 0)%float = true ->
  i ∉ outlierIndices (detectOutliers data xKey yKey threshold).
Proof.
  intros Ht Hrow Hx Hy Hin. rewrite detectOutliers_unfold in Hin.
  apply elem_of_flaggedFrom in Hin as (j & row' & Hj & Hrow' & Hf).
  simpl in Hj. subst j. rewrite Hrow in Hrow'. injection Hrow' as <-.
  unfold rowFlagged in Hf.
  rewrite (zScore_neutral _ _ Hx), (zScore_neutral _ _ Hy) in Hf.
  rewrite (flagged_zero _ Ht) in Hf. discriminate.
Qed.

Definition neutralData : list DataRow :=
  [ {[ "x" := VStr "n/a"; "y" := VNum 4 ]}; {[ "x" := VNum 1; "y" := VNum 4 ]};
    {[ "x" := VNum 9; "y" := VNum 4 ]} ].

Lemma neutral_row_not_flagged_witness :
  (0 <=? 0.5)%float = true
  /\ 0%nat ∉ outlierIndices (detectOutliers neutralData "x" "y" 0.5).
Proof.
  split; [reflexivity |].
  apply (neutral_row_not_flagged neutralData "x" "y" 0.5 0
           {[ "x" := VStr "n/a"; "y" := VNum 4 ]});
    [reflexivity | reflexivity | left; reflexivity | right; reflexivity].
Defined.

Lemma flaggedFrom_none (xStats yStats : FieldStats) (xKey yKey : string)
    (threshold : float) (l : list DataRow) :
  (forall zx zy : float, flagged zx zy threshold = false) ->
  forall index : nat, flaggedFrom xStats yStats xKey yKey threshold index l = [].
Proof.
  intros H. induction l as [| row l IH]; intros index; simpl; [reflexivity |].
  unfold rowFlagged. rewrite H. apply IH.
Qed.

(** X2.  A threshold that is NaN, or +Infinity, flags no row at all. *)
Theorem degenerate_threshold_flags_nothing (data : list DataRow)
    (xKey yKey : string) :
  outlierIndices (detectOutliers data xKey yKey nan) = []
  /\ outlierIndices (detectOutliers data xKey yKey infinity) = [].
Proof.
  rewrite !detectOutliers_unfold. cbn [outlierIndices].
  split; apply flaggedFrom_none; intros zx zy; unfold flagged.
  - change (nan * jointFactor)%float with nan. now rewrite !ltb_nan_l.
  - change (infinity * jointFactor)%float with infinity.
    now rewrite !ltb_infinity_l.
Qed.

End StatsExtras.

(** ** Further properties of [src/services/geminiService.ts] *)

Module GeminiExtras.
Import JS Stats StatsFacts Gemini.

Lemma slice_prefix {A} (l : list A) (n : Z) :
  0 <= n -> slice l 0 n = take (Z.to_nat n) l.
Proof.
  intros Hn. unfold slice. cbn [Z.ltb Z.compare].
  destruct (Z.ltb_spec n 0) as [H | _]; [lia |].
  rewrite (Z.min_l 0) by lia. rewrite Z.sub_0_r.
  change (Z.to_nat 0) with 0%nat. rewrite drop_0.
  destruct (Z.min_spec n (Z.of_nat (length l))) as [[Hlt ->] | [Hge ->]];
    [reflexivity |].
  rewrite Nat2Z.id. rewrite firstn_all. symmetry. apply take_ge. lia.
Qed.

Lemma filterIndex_filter {A} (keep : nat -> bool) (p : A -> bool) (l : list A) :
  forall i : nat,
    (forall (j : nat) (x : A), l !! j = Some x -> keep (i + j)%nat = p x) ->
    filterIndex keep i l = List.filter p l.
Proof.
  induction l as [| x l IH]; intros i H; [reflexivity |].
  cbn [filterIndex List.filter].
  rewrite <- (H 0%nat x eq_refl), Nat.add_0_r.
  rewrite (IH (S i)); [reflexivity |].
  intros j y Hj. rewrite <- (H (S j) y Hj). f_equal. lia.
Qed.

Lemma filterIndex_lookup {A} (keep : nat -> bool) (l : list A) (x : A) :
  forall i : nat,
    x ∈ filterIndex keep i l <->
    exists j : nat, l !! j = Some x /\ keep (i + j)%nat = true.
Proof.
  induction l as [| y l IH]; intros i; cbn [filterIndex].
  - split; [intros H; inversion H | intros (j & H & _); discriminate].
  - assert (Htail : x ∈ filterIndex keep (S i) l <->
                    exists j, l !! j = Some x /\ keep (i + S j)%nat = true).
    { rewrite IH. split; intros (j & H1 & H2); exists j; split; auto;
        [replace (i + S j)%nat with (S i + j)%nat by lia
        | replace (S i + j)%nat with (i + S j)%nat by lia]; exact H2. }
    destruct (keep i) eqn:Hk.
    + rewrite elem_of_cons, Htail. split.
      * intros [-> | (j & H1 & H2)].
        -- exists 0%nat. split; [reflexivity | now rewrite Nat.add_0_r].
        -- exists (S j). auto.
      * intros ([| j] & H1 & H2).
        -- left. now injection H1.
        -- right. exists j. auto.
    + rewrite Htail. split.
      * intros (j & H1 & H2). exists (S j). auto.
      * intros ([| j] & H1 & H2).
        -- rewrite Nat.add_0_r in H2. congruence.
        -- exists j. auto.
Qed.

Lemma filterIndex_sublist {A} (keep : nat -> bool) (l : list A) :
  forall i : nat, filterIndex keep i l `sublist_of` l.
Proof.
  induction l as [| x l IH]; intros i; cbn [filterIndex]; [constructor |].
  destruct (keep i); [apply sublist_skip | apply sublist_cons]; apply IH.
Qed.

Lemma existsb_eqb_elem (i : nat) (l : list nat) :
  existsb (Nat.eqb i) l = true <-> i ∈ l.
Proof.
  rewrite existsb_exists, list_elem_of_In. split.
  - intros (j & Hj & E). apply Nat.eqb_eq in E. now subst.
  - intros H. exists i. split; [exact H | apply Nat.eqb_refl].
Qed.

(** X4.  With the API key present, [analyzeOutliersWithGemini] sends the
    collaborator one prompt, fixed by the arguments, and completes from the
    outcome of that call: the prompt's outliers are the rows at the given
    indices (undefined where an index is out of range), one per index; its
    normal sample is the first ten rows whose index is not among the outlier
    indices, in row order (all of them when there are fewer). *)
Theorem collaborator_payload (apiKey : option string)
    (JSON_parse : string -> completion json) (dataSample : list DataRow)
    (columns : list string) (outlierIndices : list nat) (xAxis yAxis : string) :
  falsy apiKey = false ->
  exists (prompt : Prompt) (resume : completion Response -> completion json),
    analyzeOutliersWithGemini apiKey JSON_parse dataSample columns
      outlierIndices xAxis yAxis
    = Await prompt resume
    /\ outliers prompt = List.map (fun i : nat => dataSample !! i) outlierIndices
    /\ (length (normalSample prompt) <= 10)%nat
    /\ normalSample prompt `sublist_of` dataSample
    /\ (forall row : DataRow,
          row ∈ normalSample prompt ->
          exists i : nat, dataSample !! i = Some row /\ i ∉ outlierIndices)
    /\ ((length (normalSample prompt) < 10)%nat ->
        forall (i : nat) (row : DataRow),
          dataSample !! i = Some row -> i ∉ outlierIndices ->
          row ∈ normalSample prompt)
    /\ (promptColumns prompt, promptX prompt, promptY prompt)
       = (columns, xAxis, yAxis).
Proof.
  intros Hkey. unfold analyzeOutliersWithGemini. rewrite Hkey.
  set (keep := fun i : nat => negb (existsb (Nat.eqb i) outlierIndices)).
  eexists _, _. split; [reflexivity |].
  cbn [outliers normalSample promptColumns promptX promptY].
  rewrite slice_prefix by lia. change (Z.to_nat 10) with 10%nat.
  assert (Hkeep : forall i : nat, keep i = true <-> i ∉ outlierIndices).
  { intros i. unfold keep. rewrite negb_true_iff, <- not_true_iff_false.
    now rewrite existsb_eqb_elem. }
  repeat split.
  - rewrite length_take. lia.
  - etransitivity; [apply sublist_take | apply filterIndex_sublist].
  - intros row Hrow.
    eapply elem_of_sublist in Hrow; [| apply sublist_take].
    apply filterIndex_lookup in Hrow as (j & Hj & Hk).
    exists j. split; [exact Hj | now apply Hkeep].
  - intros Hlen i row Hi Hout.
    rewrite take_ge by (rewrite length_take in Hlen; lia).
    apply filterIndex_lookup. exists i. split; [exact Hi | now apply Hkeep].
Qed.

(** With the key missing the collaborator is not consulted. *)
Lemma missing_key_sends_nothing (apiKey : option string)
    (JSON_parse : string -> completion json) (dataSample : list DataRow)
    (columns : list string) (outlierIndices : list nat) (xAxis yAxis : string) :
  falsy apiKey = true ->
  sent (analyzeOutliersWithGemini apiKey JSON_parse dataSample columns
          outlierIndices xAxis yAxis) = [].
Proof. intros H. unfold analyzeOutliersWithGemini. now rewrite H. Qed.

(** X5.  Called as the dashboard does, with the rows and the indices
    [detectOutliers] returned for them, the prompt sent holds every flagged
    row, in row order, as its outliers, and the first ten unflagged rows as
    its normal sample. *)
Theorem collaborator_payload_of_analysis (apiKey : option string)
    (JSON_parse : string -> completion json) (data : list DataRow)
    (columns : list string) (xKey yKey : string) (threshold : float) :
  falsy apiKey = false ->
  let flaggedRow :=
    rowFlagged (calculateStats data xKey) (calculateStats data yKey)
      xKey yKey threshold in
  exists (prompt : Prompt) (resume : completion Response -> completion json),
    analyzeOutliersWithGemini apiKey JSON_parse data columns
      (outlierIndices (detectOutliers data xKey yKey threshold)) xKey yKey
    = Await prompt resume
    /\ outliers prompt = List.map Some (List.filter flaggedRow data)
    /\ normalSample prompt
       = take 10 (List.filter (fun row => negb (flaggedRow row)) data).
Proof.
  intros Hkey. cbv zeta. unfold analyzeOutliersWithGemini. rewrite Hkey.
  rewrite detectOutliers_unfold. cbn [outlierIndices].
  set (xs := calculateStats data xKey). set (ys := calculateStats data yKey).
  set (idx := flaggedFrom xs ys xKey yKey threshold 0 data).
  set (keep := fun i : nat => negb (existsb (Nat.eqb i) idx)).
  eexists _, _. split; [reflexivity |].
  cbn [outliers normalSample].
  split.
  - unfold idx. clear idx keep.
    assert (G : forall (pre l : list DataRow),
               List.map (fun i : nat => (pre ++ l) !! i)
                 (flaggedFrom xs ys xKey yKey threshold (length pre) l)
               = List.map Some
                   (List.filter (rowFlagged xs ys xKey yKey threshold) l)).
    { intros pre l. revert pre.
      induction l as [| row l IH]; intros pre; [reflexivity |].
      cbn [flaggedFrom List.filter].
      specialize (IH (pre ++ [row])).
      rewrite <- app_assoc, length_app in IH. cbn [app length] in IH.
      rewrite Nat.add_1_r in IH.
      destruct (rowFlagged xs ys xKey yKey threshold row); [| exact IH].
      cbn [List.map]. rewrite IH. f_equal.
      rewrite lookup_app_r by lia. now rewrite Nat.sub_diag. }
    exact (G [] data).
  - rewrite slice_prefix by lia. change (Z.to_nat 10) with 10%nat. f_equal.
    apply filterIndex_filter. intros j row Hj. cbn [Nat.add]. unfold keep.
    f_equal. apply eq_true_iff_eq. rewrite existsb_eqb_elem.
    unfold idx. rewrite elem_of_flaggedFrom. split.
    + intros (j' & row' & -> & Hj' & Hf). cbn [Nat.add] in Hj.
      rewrite Hj in Hj'. now injection Hj' as <-.
    + intros Hf. exists j, row. auto.
Qed.

(** A [JSON.parse] that rejects every text, for the examples below, which
    do not depend on it. *)
Definition rejectAll (s : string) : completion json := Throw "SyntaxError".

Definition payloadData : list DataRow :=
  [ {[ "x" := VNum 1; "y" := VNum 2 ]}; {[ "x" := VNum 2; "y" := VNum 1 ]};
    {[ "x" := VNum 40; "y" := VNum 3 ]} ].

Lemma collaborator_payload_witness :
  falsy (Some "key") = false
  /\ exists (prompt : Prompt)
            (resume : completion Response -> completion json),
       analyzeOutliersWithGemini (Some "key") rejectAll payloadData
         ["x"; "y"] [2%nat] "x" "y"
       = Await prompt resume
       /\ outliers prompt
          = List.map (fun i : nat => payloadData !! i) [2%nat]
       /\ (length (normalSample prompt) <= 10)%nat
       /\ normalSample prompt `sublist_of` payloadData
       /\ (forall row : DataRow,
             row ∈ normalSample prompt ->
             exists i : nat, payloadData !! i = Some row /\ i ∉ [2%nat])
       /\ ((length (normalSample prompt) < 10)%nat ->
           forall (i : nat) (row : DataRow),
             payloadData !! i = Some row -> i ∉ [2%nat] ->
             row ∈ normalSample prompt)
       /\ (promptColumns prompt, promptX prompt, promptY prompt)
          = (["x"; "y"], "x", "y").
Proof.
  split; [reflexivity |].
  apply (collaborator_payload (Some "key") rejectAll payloadData ["x"; "y"]
           [2%nat] "x" "y").
  reflexivity.
Defined.

Lemma collaborator_payload_of_analysis_witness :
  falsy (Some "key") = false
  /\ exists (prompt : Prompt)
            (resume : completion Response -> completion json),
       analyzeOutliersWithGemini (Some "key") rejectAll payloadData
         ["x"; "y"]
         (outlierIndices (detectOutliers payloadData "x" "y" 1.25)) "x" "y"
       = Await prompt resume
       /\ outliers prompt
          = List.map Some
              (List.filter
                 (rowFlagged (calculateStats payloadData "x")
                    (calculateStats payloadData "y") "x" "y" 1.25)
                 payloadData)
       /\ normalSample prompt
          = take 10
              (List.filter
                 (fun row =>
                    negb (rowFlagged (calculateStats payloadData "x")
                            (calculateStats payloadData "y") "x" "y" 1.25 row))
                 payloadData).
Proof.
  split; [reflexivity |].
  apply (collaborator_payload_of_analysis (Some "key") rejectAll payloadData
           ["x"; "y"] "x" "y" 1.25).
  reflexivity.
Defined.

(** At threshold 1.25 the third of those rows is the one flagged, and the one
    sent as an outlier. *)
Example payload_of_analysis_example :
  outlierIndices (detectOutliers payloadData "x" "y" 1.25) = [2%nat]
  /\ (outliers <$> sent (analyzeOutliersWithGemini (Some "key") rejectAll
                     payloadData ["x"; "y"]
                     (outlierIndices (detectOutliers payloadData "x" "y" 1.25))
                     "x" "y"))
     = [[payloadData !! 2%nat]].
Proof. split; vm_compute; reflexivity. Qed.

End GeminiExtras.

(** ** Further properties of the analysis dashboard *)

Module DashboardExtras.
Import JS Stats Dashboard.

(** The test of the second effect: both keys chosen and some row loaded. *)
Definition ready (st : State) : bool :=
  negb (String.eqb (xKey st) "") && negb (String.eqb (yKey st) "")
  && negb (Nat.eqb (length (data (dataset st))) 0).

(** The analysis of the current inputs. *)
Definition freshResult (st : State) : Result :=
  detectOutliers (data (dataset st)) (xKey st) (yKey st) (threshold st).

Lemma runAnalysis_inputs (st : State) :
  inputs (runAnalysis st) = inputs st
  /\ aiLoading (runAnalysis st) = aiLoading st
  /\ inFlight (runAnalysis st) = inFlight st.
Proof. unfold runAnalysis. destruct (_ && _); repeat split. Qed.

Lemma ready_inputs (st st' : State) : inputs st' = inputs st -> ready st' = ready st.
Proof.
  unfold inputs, ready. intros H. injection H as H1 H2 H3 H4.
  now rewrite H1, H2, H3.
Qed.

Lemma freshResult_inputs (st st' : State) :
  inputs st' = inputs st -> freshResult st' = freshResult st.
Proof.
  unfold inputs, freshResult. intros H. injection H as H1 H2 H3 H4.
  now rewrite H1, H2, H3, H4.
Qed.

Lemma runAnalysis_ready (st : State) :
  ready st = true ->
  analysisResult (runAnalysis st) = Some (freshResult st)
  /\ aiInsight (runAnalysis st) = None.
Proof.
  unfold ready, runAnalysis, freshResult. intros ->. split; reflexivity.
Qed.

Lemma runAnalysis_not_ready (st : State) :
  ready st = false -> runAnalysis st = st.
Proof. unfold ready, runAnalysis. now intros ->. Qed.

Lemma repairKeys_rest (st : State) :
  dataset (repairKeys st) = dataset st
  /\ threshold (repairKeys st) = threshold st
  /\ analysisResult (repairKeys st) = analysisResult st
  /\ aiInsight (repairKeys st) = aiInsight st
  /\ aiLoading (repairKeys st) = aiLoading st
  /\ inFlight (repairKeys st) = inFlight st.
Proof.
  unfold repairKeys. destruct (numericColumns (dataset st)); repeat split.
Qed.

Lemma includesText_elem (l : list string) (s : string) :
  includesText l s = true <-> s ∈ l.
Proof.
  unfold includesText. rewrite existsb_exists, list_elem_of_In. split.
  - intros (x & Hx & E). apply String.eqb_eq in E. now subst.
  - intros H. exists s. split; [exact H | apply String.eqb_refl].
Qed.

Lemma orText_head (c : string) (cols : list string) :
  orText ((c :: cols) !! 0%nat) "" = c.
Proof.
  cbn. destruct (String.eqb c "") eqn:E; [| reflexivity].
  apply String.eqb_eq in E. now subst.
Qed.

Lemma repairKeys_valid (st : State) :
  numericColumns (dataset st) <> [] ->
  xKey (repairKeys st) ∈ numericColumns (dataset st)
  /\ yKey (repairKeys st) ∈ numericColumns (dataset st)
  /\ (xKey st ∈ numericColumns (dataset st) -> xKey (repairKeys st) = xKey st)
  /\ (yKey st ∈ numericColumns (dataset st) -> yKey (repairKeys st) = yKey st).
Proof.
  intros Hne. unfold repairKeys.
  destruct (numericColumns (dataset st)) as [| c cols] eqn:E; [congruence |].
  cbn [xKey yKey]. rewrite orText_head. repeat split.
  - destruct (includesText (c :: cols) (xKey st)) eqn:Hx.
    + now apply includesText_elem.
    + apply list_elem_of_here.
  - destruct (includesText (c :: cols) (yKey st)) eqn:Hy.
    + now apply includesText_elem.
    + destruct cols as [| c' cols]; cbn; [apply list_elem_of_here |].
      destruct (String.eqb c' ""); [apply list_elem_of_here |].
      apply list_elem_of_further, list_elem_of_here.
  - intros H. apply includesText_elem in H. now rewrite H.
  - intros H. apply includesText_elem in H. now rewrite H.
Qed.

Lemma datasetEffects_keys (st : State) :
  dataset (datasetEffects st) = dataset st
  /\ xKey (datasetEffects st) = xKey (repairKeys st)
  /\ yKey (datasetEffects st) = yKey (repairKeys st).
Proof.
  unfold datasetEffects.
  destruct (runAnalysis_inputs (repairKeys (runAnalysis st))) as (H1 & _).
  destruct (runAnalysis_inputs st) as (H2 & _).
  unfold inputs in H1, H2. injection H1 as A1 A2 A3 A4.
  injection H2 as B1 B2 B3 B4.
  destruct (repairKeys_rest (runAnalysis st)) as (C1 & _).
  rewrite A1, A2, A3, C1, B1. repeat split.
  - unfold repairKeys. rewrite B1, B2.
    destruct (numericColumns (dataset st)); [exact B2 | reflexivity].
  - unfold repairKeys. rewrite B1, B3.
    destruct (numericColumns (dataset st)); [exact B3 | reflexivity].
Qed.

(** X6.  Axis repair.  After the dataset is replaced by one with at least
    one numeric column, both selected keys are numeric columns of the new
    dataset, and a key that already was one is kept. *)
Theorem update_repairs_keys (st : State) (d : Dataset) :
  numericColumns d <> [] ->
  let st' := step st (UpdateDataset d) in
  xKey st' ∈ numericColumns d
  /\ yKey st' ∈ numericColumns d
  /\ (xKey st ∈ numericColumns d -> xKey st' = xKey st)
  /\ (yKey st ∈ numericColumns d -> yKey st' = yKey st).
Proof.
  intros Hne. cbv zeta. cbn [step].
  set (s := mkState d _ _ _ _ _ _ _).
  destruct (datasetEffects_keys s) as (_ & -> & ->).
  exact (repairKeys_valid s Hne).
Qed.

Definition salesDataset : Dataset :=
  mkDataset "sales" ["id"; "label"; "spend"; "revenue"]
    [ {[ "id" := VNum 1; "label" := VStr "a"; "spend" := VNum 10;
         "revenue" := VNum 30 ]};
      {[ "id" := VNum 2; "label" := VStr "b"; "spend" := VNum 20;
         "revenue" := VNum 90 ]} ].

(** The same rows after the cell [id] of the first row was edited to a text. *)
Definition editedDataset : Dataset :=
  mkDataset "sales" ["id"; "label"; "spend"; "revenue"]
    [ {[ "id" := VStr "one"; "label" := VStr "a"; "spend" := VNum 10;
         "revenue" := VNum 30 ]};
      {[ "id" := VNum 2; "label" := VStr "b"; "spend" := VNum 20;
         "revenue" := VNum 90 ]} ].

Lemma update_repairs_keys_witness :
  numericColumns editedDataset <> []
  /\ xKey (step (mount salesDataset) (UpdateDataset editedDataset))
       ∈ numericColumns editedDataset
  /\ yKey (step (mount salesDataset) (UpdateDataset editedDataset))
       ∈ numericColumns editedDataset
  /\ (xKey (mount salesDataset) ∈ numericColumns editedDataset ->
      xKey (step (mount salesDataset) (UpdateDataset editedDataset))
      = xKey (mount salesDataset))
  /\ (yKey (mount salesDataset) ∈ numericColumns editedDataset ->
      yKey (step (mount salesDataset) (UpdateDataset editedDataset))
      = yKey (mount salesDataset)).
Proof.
  split; [vm_compute; discriminate |].
  apply (update_repairs_keys (mount salesDataset) editedDataset).
  vm_compute. discriminate.
Defined.

(** There the x axis moves from [id] to [spend], and the y axis stays. *)
Example update_repairs_keys_example :
  (xKey (mount salesDataset), yKey (mount salesDataset)) = ("id", "spend")
  /\ (xKey (step (mount salesDataset) (UpdateDataset editedDataset)),
      yKey (step (mount salesDataset) (UpdateDataset editedDataset)))
     = ("spend", "spend").
Proof. split; vm_compute; reflexivity. Qed.

(** An event that changes the dataset, a key or the threshold. *)
Definition changesInputs (st : State) (ev : Event) : bool :=
  match ev with
  | UpdateDataset _ => true
  | SetXKey k => negb (String.eqb k (xKey st))
  | SetYKey k => negb (String.eqb k (yKey st))
  | SetThreshold t => negb (PrimFloat.Leibniz.eqb t (threshold st))
  | ClickGenerate | Resolved _ _ => false
  end.

Lemma runAnalysis_fresh (st : State) :
  ready (runAnalysis st) = true ->
  analysisResult (runAnalysis st) = Some (freshResult (runAnalysis st))
  /\ aiInsight (runAnalysis st) = None.
Proof.
  destruct (runAnalysis_inputs st) as (Hin & _).
  rewrite (ready_inputs _ _ Hin), (freshResult_inputs _ _ Hin).
  apply runAnalysis_ready.
Qed.

(** X7.  Invalidation.  After an event that changes the dataset, a key or
    the threshold, if both keys are chosen and the dataset has a row, the
    stored analysis is the one of the new inputs and the insight is cleared. *)
Theorem input_change_recomputes (st : State) (ev : Event) :
  changesInputs st ev = true ->
  ready (step st ev) = true ->
  analysisResult (step st ev) = Some (freshResult (step st ev))
  /\ aiInsight (step st ev) = None.
Proof.
  destruct ev as [d | k | k | t | | i r]; cbn [changesInputs step];
    try discriminate; intros Hch Hready.
  - apply runAnalysis_fresh, Hready.
  - apply negb_true_iff in Hch. rewrite Hch in *.
    apply runAnalysis_fresh, Hready.
  - apply negb_true_iff in Hch. rewrite Hch in *.
    apply runAnalysis_fresh, Hready.
  - apply negb_true_iff in Hch. rewrite Hch in *.
    apply runAnalysis_fresh, Hready.
Qed.

Definition withInsight (st : State) (insight : Gemini.json) : State :=
  step (step st ClickGenerate) (Resolved 0 insight).

Lemma input_change_recomputes_witness :
  let st := withInsight (mount salesDataset) Gemini.errorInsight in
  aiInsight st = Some Gemini.errorInsight
  /\ changesInputs st (SetThreshold 3) = true
  /\ ready (step st (SetThreshold 3)) = true
  /\ analysisResult (step st (SetThreshold 3))
     = Some (freshResult (step st (SetThreshold 3)))
  /\ aiInsight (step st (SetThreshold 3)) = None.
Proof.
  cbv zeta. split; [reflexivity |]. split; [reflexivity |].
  split; [reflexivity |].
  apply (input_change_recomputes
           (withInsight (mount salesDataset) Gemini.errorInsight)
           (SetThreshold 3)); reflexivity.
Defined.

(** The stored analysis is that of the current inputs whenever both keys
    are chosen and the dataset has a row. *)
Definition consistent (st : State) : Prop :=
  ready st = true -> analysisResult st = Some (freshResult st).

Lemma runAnalysis_consistent (st : State) :
  consistent st -> consistent (runAnalysis st).
Proof.
  intros Hc Hr. destruct (ready st) eqn:E.
  - destruct (runAnalysis_inputs st) as (Hin & _).
    rewrite (freshResult_inputs _ _ Hin). now apply runAnalysis_ready.
  - rewrite (runAnalysis_not_ready st E) in *. congruence.
Qed.

Lemma runAnalysis_makes_consistent (st : State) : consistent (runAnalysis st).
Proof. intros Hr. now apply runAnalysis_fresh. Qed.

Lemma step_consistent (st : State) (ev : Event) :
  consistent st -> consistent (step st ev).
Proof.
  intros Hc. destruct ev as [d | k | k | t | | i r]; cbn [step].
  - apply runAnalysis_makes_consistent.
  - destruct (String.eqb k (xKey st)); [exact Hc |].
    apply runAnalysis_makes_consistent.
  - destruct (String.eqb k (yKey st)); [exact Hc |].
    apply runAnalysis_makes_consistent.
  - destruct (PrimFloat.Leibniz.eqb t (threshold st)); [exact Hc |].
    apply runAnalysis_makes_consistent.
  - destruct (aiInsight st), (aiLoading st), (analysisResult st) eqn:E;
      try exact Hc.
    intros Hr. unfold consistent, ready, freshResult in *.
    cbn in *. rewrite E in Hc. exact (Hc Hr).
  - destruct (inFlight st !! i); [| exact Hc].
    intros Hr. unfold consistent, ready, freshResult in *. cbn in *.
    exact (Hc Hr).
Qed.

Lemma run_consistent (evs : list Event) :
  forall st : State, consistent st -> consistent (run st evs).
Proof.
  unfold run. induction evs as [| ev evs IH]; intros st Hc; [exact Hc |].
  cbn [fold_left]. apply IH, step_consistent, Hc.
Qed.

(** X8.  Whatever happens after the first render (input changes, requests,
    completions in any order), when both keys are chosen and the dataset has
    a row the stored analysis is [detectOutliers] of the current dataset,
    keys and threshold. *)
Theorem analysis_tracks_inputs (d : Dataset) (evs : list Event) :
  let st := run (mount d) evs in
  ready st = true ->
  analysisResult st
  = Some (detectOutliers (data (dataset st)) (xKey st) (yKey st) (threshold st)).
Proof.
  cbv zeta. apply (run_consistent evs (mount d)).
  unfold mount, datasetEffects. apply runAnalysis_makes_consistent.
Qed.

Definition busyTrace : list Event :=
  [ ClickGenerate; SetThreshold 3; SetXKey "revenue";
    Resolved 0 Gemini.errorInsight; UpdateDataset editedDataset;
    ClickGenerate ].

Lemma analysis_tracks_inputs_witness :
  ready (run (mount salesDataset) busyTrace) = true
  /\ analysisResult (run (mount salesDataset) busyTrace)
     = Some (detectOutliers
               (data (dataset (run (mount salesDataset) busyTrace)))
               (xKey (run (mount salesDataset) busyTrace))
               (yKey (run (mount salesDataset) busyTrace))
               (threshold (run (mount salesDataset) busyTrace))).
Proof.
  split; [reflexivity |].
  apply (analysis_tracks_inputs salesDataset busyTrace). reflexivity.
Defined.

(** One request is outstanding exactly while [aiLoading] is set. *)
Definition singleFlight (st : State) : Prop :=
  length (inFlight st) = if aiLoading st then 1%nat else 0%nat.

Lemma datasetEffects_singleFlight (st : State) :
  singleFlight st -> singleFlight (datasetEffects st).
Proof.
  unfold singleFlight, datasetEffects. intros H.
  destruct (runAnalysis_inputs (repairKeys (runAnalysis st))) as (_ & -> & ->).
  destruct (repairKeys_rest (runAnalysis st)) as (_ & _ & _ & _ & -> & ->).
  destruct (runAnalysis_inputs st) as (_ & -> & ->). exact H.
Qed.

Lemma runAnalysis_singleFlight (st : State) :
  singleFlight st -> singleFlight (runAnalysis st).
Proof.
  unfold singleFlight. intros H.
  destruct (runAnalysis_inputs st) as (_ & -> & ->). exact H.
Qed.

Lemma step_singleFlight (st : State) (ev : Event) :
  singleFlight st -> singleFlight (step st ev).
Proof.
  intros H. destruct ev as [d | k | k | t | | i r]; cbn [step].
  - apply datasetEffects_singleFlight, H.
  - destruct (String.eqb k (xKey st));
      [exact H | apply runAnalysis_singleFlight, H].
  - destruct (String.eqb k (yKey st));
      [exact H | apply runAnalysis_singleFlight, H].
  - destruct (PrimFloat.Leibniz.eqb t (threshold st));
      [exact H | apply runAnalysis_singleFlight, H].
  - unfold singleFlight in *.
    destruct (aiInsight st), (aiLoading st) eqn:El, (analysisResult st);
      try exact H; try (now rewrite El).
    cbn. rewrite length_app. cbn. rewrite H. reflexivity.
  - unfold singleFlight in *.
    destruct (inFlight st !! i) eqn:Ei; [| exact H].
    cbn. unfold removeAt.
    destruct (aiLoading st).
    + destruct (inFlight st) as [| q0 [| q1 l]]; try discriminate.
      destruct i as [| i]; [reflexivity | discriminate].
    + destruct (inFlight st); [discriminate Ei | discriminate H].
Qed.

Lemma run_singleFlight (evs : list Event) :
  forall st : State, singleFlight st -> singleFlight (run st evs).
Proof.
  unfold run. induction evs as [| ev evs IH]; intros st Hs; [exact Hs |].
  cbn [fold_left]. apply IH, step_singleFlight, Hs.
Qed.

(** X9.  Whatever happens after the first render, at most one insight
    request is outstanding, and one is exactly while [aiLoading] is set. *)
Theorem single_request_in_flight (d : Dataset) (evs : list Event) :
  let st := run (mount d) evs in
  length (inFlight st) = (if aiLoading st then 1%nat else 0%nat)
  /\ (length (inFlight st) <= 1)%nat.
Proof.
  cbv zeta.
  assert (H : singleFlight (run (mount d) evs)).
  { apply run_singleFlight. unfold mount.
    apply datasetEffects_singleFlight. reflexivity. }
  split; [exact H |]. unfold singleFlight in H. rewrite H.
  destruct (aiLoading _); lia.
Qed.

(** X10.  Replacing the dataset by one without rows recomputes nothing: the
    keys, the stored analysis and the displayed insight stay those of the
    previous dataset. *)
Theorem empty_dataset_keeps_analysis (st : State) (d : Dataset) :
  data d = [] ->
  step st (UpdateDataset d)
  = mkState d (xKey st) (yKey st) (threshold st) (analysisResult st)
      (aiInsight st) (aiLoading st) (inFlight st).
Proof.
  intros Hd. cbn [step]. unfold datasetEffects.
  set (s := mkState d _ _ _ _ _ _ _).
  assert (Hr : ready s = false).
  { unfold ready. cbn. rewrite Hd. cbn. now rewrite andb_false_r. }
  rewrite (runAnalysis_not_ready s Hr).
  assert (Hk : repairKeys s = s).
  { unfold repairKeys, numericColumns. cbn. now rewrite Hd. }
  rewrite Hk. apply runAnalysis_not_ready, Hr.
Qed.

Lemma empty_dataset_keeps_analysis_witness :
  data (mkDataset "empty" ["id"] []) = []
  /\ step (withInsight (mount salesDataset) Gemini.errorInsight)
          (UpdateDataset (mkDataset "empty" ["id"] []))
     = mkState (mkDataset "empty" ["id"] [])
         (xKey (withInsight (mount salesDataset) Gemini.errorInsight))
         (yKey (withInsight (mount salesDataset) Gemini.errorInsight))
         (threshold (withInsight (mount salesDataset) Gemini.errorInsight))
         (analysisResult (withInsight (mount salesDataset) Gemini.errorInsight))
         (aiInsight (withInsight (mount salesDataset) Gemini.errorInsight))
         (aiLoading (withInsight (mount salesDataset) Gemini.errorInsight))
         (inFlight (withInsight (mount salesDataset) Gemini.errorInsight)).
Proof.
  split; [reflexivity |].
  apply (empty_dataset_keeps_analysis
           (withInsight (mount salesDataset) Gemini.errorInsight)
           (mkDataset "empty" ["id"] [])).
  reflexivity.
Defined.

End DashboardExtras.

(** ** Further properties of the data editor *)

Module EditorExtras.
Import JS DataEditor EditorClaims.

Section Extras.

Variable NumberToString : float -> string.
Variable MemberToString : string -> string.

Abbreviation filteredData' := (filteredData NumberToString MemberToString).
Abbreviation currentData' := (currentData NumberToString MemberToString).
Abbreviation saveEdit' := (saveEdit NumberToString MemberToString).
Abbreviation totalPages' := (totalPages NumberToString MemberToString).
Abbreviation handlePageChange' :=
  (handlePageChange NumberToString MemberToString).
Abbreviation String' := (String_ NumberToString MemberToString).

(** What a committing [saveEdit] does, in one equation. *)
Lemma saveEdit_commit (st : State) (rowIndex : nat) (colKey : string)
    (row : RowObject) :
  editingCell st = Some (rowIndex, colKey) ->
  currentData' st !! rowIndex = Some row ->
  exists (g : nat) (target : RowObject),
    indexOf (localData st) row = Some g
    /\ localData st !! g = Some target
    /\ oid target = oid row
    /\ saveEdit' st
       = (let newData :=
            <[g := mkRow (freshOid (localData st))
                     (<[colKey := finalValue (fields target !! colKey)
                                    (editValue st)]> (fields target))]>
              (localData st) in
          (mkState (columns st) (currentPage st) (searchTerm st) None
                   (editValue st) newData, Some newData)).
Proof.
  intros Hcell Hrow.
  assert (Hin : row ∈ localData st).
  { apply (currentData_elem NumberToString MemberToString).
    eapply list_elem_of_lookup_2, Hrow. }
  destruct (indexOf_elem _ _ Hin) as [g Hg].
  destruct (indexOf_Some _ _ _ Hg) as (target & Htarget & Hoid).
  exists g, target. repeat split; auto.
  unfold saveEdit. rewrite Hcell, Hrow. cbn [mbind option_bind].
  now rewrite Hg, Htarget.
Qed.

Lemma freshOid_above (l : list RowObject) (r : RowObject) :
  r ∈ l -> (oid r < freshOid l)%nat.
Proof.
  unfold freshOid. induction l as [| x l IH]; intros H; [inversion H |].
  cbn [fold_right]. apply elem_of_cons in H as [-> | H]; [lia |].
  specialize (IH H). lia.
Qed.

(** X11.  A committed edit changes one cell and nothing else: the row list
    keeps its length, every other position holds the same object, the edited
    position holds a new object (an identity no row had) whose other cells
    are those of the original row, and the edit is closed with page, search
    and columns untouched. *)
Theorem saveEdit_frame (st : State) (rowIndex : nat) (colKey : string)
    (row : RowObject) :
  editingCell st = Some (rowIndex, colKey) ->
  currentData' st !! rowIndex = Some row ->
  let st' := (saveEdit' st).1 in
  exists (g : nat) (target row' : RowObject),
    localData st !! g = Some target
    /\ oid target = oid row
    /\ localData st' !! g = Some row'
    /\ length (localData st') = length (localData st)
    /\ (forall j : nat, j <> g -> localData st' !! j = localData st !! j)
    /\ (forall k : string, k <> colKey ->
          fields row' !! k = fields target !! k)
    /\ (forall r : RowObject, r ∈ localData st -> oid r <> oid row')
    /\ editingCell st' = None
    /\ (columns st', currentPage st', searchTerm st', editValue st')
       = (columns st, currentPage st, searchTerm st, editValue st).
Proof.
  intros Hcell Hrow. cbv zeta.
  destruct (saveEdit_commit st rowIndex colKey row Hcell Hrow)
    as (g & target & _ & Htarget & Hoid & ->).
  cbv zeta. cbn [fst localData editingCell columns currentPage searchTerm
                 editValue].
  exists g, target,
    (mkRow (freshOid (localData st))
       (<[colKey := finalValue (fields target !! colKey) (editValue st)]>
          (fields target))).
  repeat split.
  - exact Htarget.
  - exact Hoid.
  - apply list_lookup_insert_eq. eapply lookup_lt_Some, Htarget.
  - apply length_insert.
  - intros j Hj. apply list_lookup_insert_ne. congruence.
  - intros k Hk. cbn [fields]. apply lookup_insert_ne. congruence.
  - intros r Hr. cbn [oid]. pose proof (freshOid_above _ _ Hr). lia.
Qed.

Lemma same_object (l : list RowObject) (g : nat) (target row : RowObject) :
  NoDup (oid <$> l) -> l !! g = Some target -> row ∈ l ->
  oid target = oid row -> target = row.
Proof.
  intros Hnd Hg Hin Hoid.
  apply list_elem_of_lookup in Hin as [j Hj].
  assert (g = j).
  { apply (NoDup_lookup (oid <$> l) g j (oid row) Hnd);
      rewrite list_lookup_fmap; [rewrite Hg | rewrite Hj]; cbn; congruence. }
  subst j. congruence.
Qed.

Lemma NoDup_insert_fresh {A} (l : list A) (g : nat) (x : A) :
  NoDup l -> x ∉ l -> NoDup (<[g := x]> l).
Proof.
  intros Hnd Hx. destruct (decide (g < length l)%nat) as [Hlt | Hge];
    [| now rewrite list_insert_ge by lia].
  destruct (lookup_lt_is_Some_2 l g Hlt) as [y Hy].
  rewrite insert_take_drop by exact Hlt.
  rewrite <- (take_drop_middle l g y Hy) in Hnd, Hx.
  apply NoDup_app in Hnd as (H1 & H2 & H3).
  apply NoDup_cons in H3 as [H3 H4].
  apply NoDup_app. repeat split.
  - exact H1.
  - intros z Hz Hz'. apply elem_of_cons in Hz' as [-> | Hz'].
    + apply Hx. apply elem_of_app. now left.
    + apply (H2 z Hz). now apply list_elem_of_further.
  - apply NoDup_cons. split; [| exact H4].
    intros Hx'. apply Hx. apply elem_of_app. right.
    now apply list_elem_of_further.
Qed.

Lemma saveEdit_on_row (st : State) (rowIndex : nat) (colKey : string)
    (row : RowObject) :
  NoDup (oid <$> localData st) ->
  editingCell st = Some (rowIndex, colKey) ->
  currentData' st !! rowIndex = Some row ->
  exists g : nat,
    localData st !! g = Some row
    /\ localData (saveEdit' st).1
       = <[g := mkRow (freshOid (localData st))
                  (<[colKey := finalValue (fields row !! colKey)
                                 (editValue st)]> (fields row))]>
           (localData st).
Proof.
  intros Hnd Hcell Hrow.
  destruct (saveEdit_commit st rowIndex colKey row Hcell Hrow)
    as (g & target & _ & Htarget & Hoid & ->).
  assert (Hin : row ∈ localData st).
  { apply (currentData_elem NumberToString MemberToString).
    eapply list_elem_of_lookup_2, Hrow. }
  assert (target = row) by (eapply same_object; eauto). subst target.
  exists g. split; [exact Htarget | reflexivity].
Qed.

(** X12.  With pairwise distinct row identities, a committed edit replaces
    the very row shown at the clicked position, also when another row has
    the same cells; and the identities stay pairwise distinct. *)
Theorem saveEdit_targets_clicked_row (st : State) (rowIndex : nat)
    (colKey : string) (row : RowObject) :
  NoDup (oid <$> localData st) ->
  editingCell st = Some (rowIndex, colKey) ->
  currentData' st !! rowIndex = Some row ->
  let st' := (saveEdit' st).1 in
  exists g : nat,
    localData st !! g = Some row
    /\ (forall j : nat, localData st !! j = Some row -> j = g)
    /\ (fields <$> localData st' !! g)
       = Some (<[colKey := finalValue (fields row !! colKey) (editValue st)]>
                 (fields row))
    /\ (forall j : nat, j <> g -> localData st' !! j = localData st !! j)
    /\ NoDup (oid <$> localData st').
Proof.
  intros Hnd Hcell Hrow. cbv zeta.
  destruct (saveEdit_on_row st rowIndex colKey row Hnd Hcell Hrow)
    as (g & Htarget & ->).
  assert (Hin : row ∈ localData st).
  { apply (currentData_elem NumberToString MemberToString).
    eapply list_elem_of_lookup_2, Hrow. }
  exists g. repeat split.
  - exact Htarget.
  - intros j Hj.
    apply (NoDup_lookup (oid <$> localData st) j g (oid row) Hnd);
      rewrite list_lookup_fmap; [rewrite Hj | rewrite Htarget]; reflexivity.
  - rewrite list_lookup_insert_eq by (eapply lookup_lt_Some, Htarget).
    reflexivity.
  - intros j Hj. apply list_lookup_insert_ne. congruence.
  - rewrite list_fmap_insert. apply NoDup_insert_fresh; [exact Hnd |].
    cbn [oid]. intros Hf. apply list_elem_of_fmap in Hf as (r & Hr & Hin').
    pose proof (freshOid_above _ _ Hin'). lia.
Qed.

(** *** Pages *)

Lemma slice_lookup {A} (l : list A) (from to : Z) (j : nat) :
  0 <= from -> Z.of_nat j < to - from ->
  slice l from to !! j = l !! (Z.to_nat from + j)%nat.
Proof.
  intros Hf Hj. unfold slice.
  destruct (Z.ltb_spec from 0) as [? | _]; [lia |].
  destruct (Z.ltb_spec to 0) as [? | _]; [lia |].
  set (len := Z.of_nat (length l)).
  destruct (Z.le_gt_cases len from) as [Hge | Hlt].
  - rewrite Z.min_r by lia. rewrite drop_ge by (unfold len in *; lia).
    rewrite take_nil. symmetry. apply lookup_ge_None. unfold len in *. lia.
  - rewrite (Z.min_l from) by lia.
    destruct (decide (Z.of_nat j < Z.min to len - from)) as [Hin | Hout].
    + rewrite lookup_take_lt by lia. apply lookup_drop.
    + rewrite lookup_take_ge by lia. symmetry. apply lookup_ge_None.
      unfold len in *. lia.
Qed.

Lemma slice_length {A} (l : list A) (from to : Z) :
  from <= to -> Z.of_nat (length (slice l from to)) <= to - from.
Proof.
  intros H. unfold slice. rewrite length_take.
  destruct (Z.ltb_spec from 0); destruct (Z.ltb_spec to 0); lia.
Qed.

Lemma totalPages_bound (st : State) (p : Z) :
  p <= totalPages NumberToString MemberToString st <->
  (p - 1) * ROWS_PER_PAGE < Z.of_nat (length (filteredData' st)).
Proof.
  unfold totalPages, ROWS_PER_PAGE.
  set (n := Z.of_nat (length (filteredData' st))).
  pose proof (Z.div_mod (n + 10 - 1) 10 ltac:(lia)).
  pose proof (Z.mod_pos_bound (n + 10 - 1) 10 ltac:(lia)). lia.
Qed.

Lemma handlePageChange_filtered (st : State) (p : Z) :
  filteredData' (handlePageChange NumberToString MemberToString st p) = filteredData' st.
Proof. unfold handlePageChange. now destruct (_ && _). Qed.

(** X13.  A page never shows more than ten rows, and every row that matches
    the search is reachable: the row at position [i] of the filtered list is
    shown at position [i mod 10] after a change to page [i / 10 + 1], which
    is a page [handlePageChange] accepts. *)
Theorem pages_cover_filtered_rows (st : State) (i : nat) (row : RowObject) :
  filteredData' st !! i = Some row ->
  let page := Z.of_nat i / ROWS_PER_PAGE + 1 in
  let st' := handlePageChange NumberToString MemberToString st page in
  1 <= page <= totalPages NumberToString MemberToString st
  /\ currentPage st' = page
  /\ currentData' st' !! (i mod 10)%nat = Some row
  /\ (length (currentData' st') <= 10)%nat.
Proof.
  intros Hi. cbv zeta.
  pose proof (lookup_lt_Some _ _ _ Hi) as Hlt.
  set (page := Z.of_nat i / ROWS_PER_PAGE + 1).
  assert (Hdiv : 0 <= Z.of_nat i / 10) by (apply Z.div_pos; lia).
  pose proof (Z.div_mod (Z.of_nat i) 10 ltac:(lia)) as Hdm.
  pose proof (Z.mod_pos_bound (Z.of_nat i) 10 ltac:(lia)) as Hmb.
  assert (Hpage : 1 <= page <= totalPages NumberToString MemberToString st).
  { split; [unfold page, ROWS_PER_PAGE; lia |].
    apply totalPages_bound. unfold page, ROWS_PER_PAGE. lia. }
  assert (Hst : handlePageChange NumberToString MemberToString st page
                = mkState (columns st) page (searchTerm st) None (editValue st)
                    (localData st)).
  { unfold handlePageChange.
    destruct (Z.leb_spec 1 page); [| lia].
    destruct (Z.leb_spec page (totalPages NumberToString MemberToString st)); [| lia].
    reflexivity. }
  split; [exact Hpage |]. rewrite Hst. split; [reflexivity |].
  unfold currentData, startIndex. cbn [currentPage].
  change (filteredData NumberToString MemberToString (mkState _ _ _ _ _ _))
    with (filteredData' st).
  split.
  - assert (Hmod : Z.of_nat (i mod 10) = Z.of_nat i mod 10)
      by (rewrite Nat2Z.inj_mod; reflexivity).
    rewrite slice_lookup;
      [| unfold page, ROWS_PER_PAGE; lia | unfold ROWS_PER_PAGE; lia].
    rewrite <- Hi. f_equal. unfold page, ROWS_PER_PAGE.
    apply Nat2Z.inj. rewrite Nat2Z.inj_add, Z2Nat.id by lia. lia.
  - pose proof (slice_length (filteredData' st)
                  ((page - 1) * ROWS_PER_PAGE)
                  ((page - 1) * ROWS_PER_PAGE + ROWS_PER_PAGE)
                  ltac:(unfold ROWS_PER_PAGE; lia)). 
    unfold ROWS_PER_PAGE in *. lia.
Qed.

(** X14.  [handlePageChange] moves exactly when the page asked for lies in
    [1, totalPages]: the current page is then the page asked for, which
    shows at least one row, and the edit is closed; for any other page
    nothing changes.  Rows, columns, search term and edit text are never
    touched. *)
Theorem handlePageChange_lands_on_rows (st : State) (newPage : Z) :
  let st' := handlePageChange' st newPage in
  (1 <= newPage <= totalPages' st ->
   currentPage st' = newPage
   /\ editingCell st' = None
   /\ currentData' st' <> [])
  /\ (~ (1 <= newPage <= totalPages' st) -> st' = st)
  /\ (columns st', searchTerm st', editValue st', localData st')
     = (columns st, searchTerm st, editValue st, localData st).
Proof.
  cbv zeta. unfold handlePageChange.
  destruct (Z.leb_spec 1 newPage) as [H1 | H1];
    [| repeat split; intros; try reflexivity; lia].
  destruct (Z.leb_spec newPage (totalPages' st)) as [H2 | H2];
    [| repeat split; intros; try reflexivity; lia].
  cbn [andb]. set (st' := mkState _ _ _ _ _ _).
  assert (Hf : filteredData' st' = filteredData' st) by reflexivity.
  split; [| split; [intros Hn; exfalso; apply Hn; lia | reflexivity]].
  intros _. split; [reflexivity |]. split; [reflexivity |].
  intros Hnil.
  assert (Hlook : currentData' st' !! 0%nat
                  = filteredData' st !! (Z.to_nat ((newPage - 1) * 10) + 0)%nat).
  { unfold currentData, startIndex. cbn [currentPage st']. rewrite Hf.
    apply slice_lookup; unfold ROWS_PER_PAGE; lia. }
  rewrite Hnil in Hlook. cbn in Hlook. symmetry in Hlook.
  apply lookup_ge_None in Hlook.
  apply totalPages_bound in H2. unfold ROWS_PER_PAGE in H2. lia.
Qed.

(** *** Opening a cell and committing at once *)

(** What a cell holds after it was opened and committed with the edit text
    left as [startEdit] filled it, from what the click read in the row. *)
Definition reopened (original : Read) : value :=
  match original with
  | Own (VStr s) => VStr s
  | Own (VBool b) => VBool b
  | Own VNull => VStr "null"
  | Undefined => VStr "undefined"
  | Inherited member => VStr (MemberToString member)
  | Own (VNum n) =>
      if isNaN (StringToNumber (NumberToString n)) then VStr (NumberToString n)
      else VNum (StringToNumber (NumberToString n))
  end.

Lemma finalValue_reopened (row : gmap string value) (col : string) :
  finalValue (row !! col) (String' (get row col)) = reopened (get row col).
Proof.
  unfold get. destruct (row !! col) as [[| [|] | n | s] |]; try reflexivity.
  - unfold finalValue, reopened. cbn [is_number String_ andb].
    now destruct (isNaN (StringToNumber (NumberToString n))).
  - now destruct (existsb _ _).
Qed.

(** X15.  A click on a cell followed by a commit with the edit text
    untouched keeps a text or boolean cell as it was, but turns a null cell
    into the text "null"; a cell the row does not hold becomes the text
    "undefined", or, in a column named like a member of [Object.prototype],
    the text of that inherited member; a number cell holds the number its
    own text denotes. *)
Theorem click_then_commit (st : State) (rIndex : nat) (col : string)
    (row : RowObject) :
  NoDup (oid <$> localData st) ->
  currentData' st !! rIndex = Some row ->
  editingCell st <> Some (rIndex, col) ->
  let st' :=
    (saveEdit' (clickCell NumberToString MemberToString st rIndex col)).1 in
  exists g : nat,
    localData st !! g = Some row
    /\ localData st' !! g ≫= (fun r => fields r !! col)
       = Some (reopened (get (fields row) col))
    /\ (forall k : string, k <> col ->
          localData st' !! g ≫= (fun r => fields r !! k) = fields row !! k).
Proof.
  intros Hnd Hrow Hcell. cbv zeta.
  assert (Hclick : clickCell NumberToString MemberToString st rIndex col
                   = startEdit NumberToString MemberToString st rIndex col
                       (get (fields row) col)).
  { unfold clickCell. rewrite Hrow. now rewrite bool_decide_eq_false_2. }
  rewrite Hclick.
  set (st1 := startEdit NumberToString MemberToString st rIndex col
                (get (fields row) col)).
  destruct (saveEdit_on_row st1 rIndex col row Hnd eq_refl Hrow)
    as (g & Hg & ->).
  cbn [st1 startEdit localData editValue] in *.
  exists g. split; [exact Hg |].
  rewrite list_lookup_insert_eq by (eapply lookup_lt_Some, Hg).
  cbn [mbind option_bind fields]. split.
  - rewrite lookup_insert_eq. now rewrite finalValue_reopened.
  - intros k Hk. apply lookup_insert_ne. congruence.
Qed.

(** *** The search *)

Lemma startsWith_spec (p l : list ascii) :
  startsWith p l = true <-> exists post : list ascii, l = p ++ post.
Proof.
  revert l. induction p as [| a p IH]; intros l; cbn [startsWith].
  - split; [intros _; now exists l | reflexivity].
  - destruct l as [| b l].
    + split; [discriminate | intros (post & H); discriminate].
    + rewrite andb_true_iff, Ascii.eqb_eq, IH. split.
      * intros (-> & post & ->). now exists post.
      * intros (post & H). injection H as -> ->. eauto.
Qed.

Lemma includesFrom_spec (l p : list ascii) :
  includesFrom l p = true <->
  exists pre post : list ascii, l = pre ++ p ++ post.
Proof.
  induction l as [| b l IH]; cbn [includesFrom]; rewrite orb_true_iff.
  - rewrite startsWith_spec. split.
    + intros [(post & H) | H]; [| discriminate]. now exists [], post.
    + intros (pre & post & H). left.
      destruct pre; [now exists post | discriminate].
  - rewrite startsWith_spec, IH. split.
    + intros [(post & H) | (pre & post & H)].
      * now exists [], post.
      * exists (b :: pre), post. now rewrite H.
    + intros (pre & post & H). destruct pre as [| c pre].
      * left. now exists post.
      * right. injection H as -> ->. eauto.
Qed.

(** X16.  The search keeps exactly the rows in which the lower-cased text
    of some column contains the lower-cased search term, in their order (the
    text of a column the row does not hold is "undefined", or that of the
    inherited member for a column named like a member of
    [Object.prototype]); so an empty term keeps every row as soon as there is
    a column. *)
Theorem search_keeps_matching_rows (st : State) :
  filteredData' st `sublist_of` localData st
  /\ (forall row : RowObject,
        row ∈ filteredData' st <->
        row ∈ localData st
        /\ exists (col : string) (pre post : list ascii),
             col ∈ columns st
             /\ asciis (toLowerCase
                          (String' (get (fields row) col)))
                = pre ++ asciis (toLowerCase (searchTerm st)) ++ post)
  /\ (searchTerm st = "" -> columns st <> [] ->
      filteredData' st = localData st).
Proof.
  unfold filteredData. repeat split.
  - induction (localData st) as [| r l IH]; [constructor |].
    cbn [List.filter]. destruct (existsb _ _);
      [apply sublist_skip | apply sublist_cons]; exact IH.
  - apply list_elem_of_In, filter_In in H as [H _]. now apply list_elem_of_In.
  - apply list_elem_of_In, filter_In in H as [_ H].
    apply existsb_exists in H as (col & Hcol & H).
    apply includesFrom_spec in H as (pre & post & H).
    exists col, pre, post. split; [now apply list_elem_of_In | exact H].
  - intros (Hin & col & pre & post & Hcol & H).
    apply list_elem_of_In, filter_In. split; [now apply list_elem_of_In |].
    apply existsb_exists. exists col. split; [now apply list_elem_of_In |].
    apply includesFrom_spec. eauto.
  - intros Hterm Hcols. rewrite Hterm.
    destruct (columns st) as [| c cols]; [congruence |].
    assert (Hp : forall row : RowObject,
               existsb
                 (fun col =>
                    includes
                      (toLowerCase
                         (String' (get (fields row) col)))
                      (toLowerCase "")) (c :: cols) = true).
    { intros row. cbn [existsb]. unfold includes.
      change (asciis (toLowerCase "")) with (@nil ascii).
      now destruct (asciis _). }
    induction (localData st) as [| r l IH]; [reflexivity |].
    cbn [List.filter]. rewrite Hp. now rewrite IH.
Qed.

(** X17.  Typing in the search box moves to page 1, which then shows the
    first ten rows matching the new term; the rows themselves are untouched. *)
Theorem changeSearch_shows_first_matches (st : State) (term : string) :
  let st' := changeSearch st term in
  currentPage st' = 1
  /\ localData st' = localData st
  /\ currentData' st' = take 10 (filteredData' st')
  /\ (forall row : RowObject,
        row ∈ currentData' st' ->
        exists (col : string) (pre post : list ascii),
          col ∈ columns st
          /\ asciis (toLowerCase (String' (get (fields row) col)))
             = pre ++ asciis (toLowerCase term) ++ post).
Proof.
  cbv zeta. split; [reflexivity |]. split; [reflexivity |].
  assert (Hc : currentData' (changeSearch st term)
               = take 10 (filteredData' (changeSearch st term))).
  { unfold currentData, startIndex. cbn [changeSearch currentPage].
    change ((1 - 1) * ROWS_PER_PAGE) with 0.
    change (0 + ROWS_PER_PAGE) with 10.
    unfold slice. cbn [Z.ltb Z.compare].
    rewrite (Z.min_l 0) by lia. rewrite Z.sub_0_r.
    change (Z.to_nat 0) with 0%nat. rewrite drop_0.
    set (l := filteredData' _).
    destruct (Z.min_spec 10 (Z.of_nat (length l))) as [[_ ->] | [Hge ->]];
      [reflexivity |].
    rewrite Nat2Z.id, firstn_all. symmetry. apply take_ge. lia. }
  split; [exact Hc |]. intros row Hrow. rewrite Hc in Hrow.
  eapply elem_of_sublist in Hrow; [| apply sublist_take].
  unfold filteredData in Hrow. cbn [changeSearch localData columns searchTerm]
    in Hrow.
  apply list_elem_of_In, filter_In in Hrow as [_ H].
  apply existsb_exists in H as (col & Hcol & H).
  apply includesFrom_spec in H as (pre & post & H).
  exists col, pre, post. split; [now apply list_elem_of_In | exact H].
Qed.

(** Case analysis on the comparisons of the goal, innermost first. *)
Ltac case_ltb :=
  repeat match goal with
         | |- context [?a <? ?b] =>
             lazymatch a with
             | context [if _ then _ else _] => fail
             | _ =>
                 lazymatch b with
                 | context [if _ then _ else _] => fail
                 | _ => destruct (Z.ltb_spec a b)
                 end
             end
         end.

(** X18.  Every numbered button of the footer asks for a page that
    [handlePageChange] accepts, and when the current page lies in
    [1, totalPages] one of the buttons is the current page. *)
Theorem page_buttons_are_valid (st : State) :
  (forall p : Z,
     p ∈ pageButtons NumberToString MemberToString st ->
     1 <= p <= totalPages NumberToString MemberToString st
     /\ currentPage (handlePageChange NumberToString MemberToString st p) = p)
  /\ (1 <= currentPage st <= totalPages NumberToString MemberToString st ->
      currentPage st ∈ pageButtons NumberToString MemberToString st).
Proof.
  unfold pageButtons. set (tp := totalPages NumberToString MemberToString st).
  assert (Hbutton : forall i : Z,
             0 <= i < Z.min 5 tp ->
             1 <= pageButton NumberToString MemberToString st i <= tp).
  { intros i Hi. unfold pageButton. fold tp.
    destruct (Z.ltb_spec 5 tp); destruct (Z.ltb_spec 3 (currentPage st));
      case_ltb; lia. }
  split.
  - intros p Hp. apply list_elem_of_In, in_map_iff in Hp as (i & <- & Hi).
    apply in_seq in Hi.
    assert (Hr : 1 <= pageButton NumberToString MemberToString st (Z.of_nat i) <= tp)
      by (apply Hbutton; lia).
    split; [exact Hr |]. unfold handlePageChange. fold tp.
    destruct (Z.leb_spec 1 (pageButton NumberToString MemberToString st (Z.of_nat i)));
      [| lia].
    destruct (Z.leb_spec (pageButton NumberToString MemberToString st (Z.of_nat i)) tp);
      [reflexivity | lia].
  - intros Hcp. apply list_elem_of_In, in_map_iff.
    destruct (Z.ltb_spec 5 tp) as [Hbig | Hsmall].
    + destruct (Z.ltb_spec 3 (currentPage st)) as [Hfar | Hnear].
      * exists 3%nat. split; [| apply in_seq; lia].
        unfold pageButton. fold tp. change (Z.of_nat 3) with 3.
        destruct (Z.ltb_spec 5 tp); [| exfalso; lia].
        destruct (Z.ltb_spec 3 (currentPage st)); [| exfalso; lia].
        case_ltb; lia.
      * exists (Z.to_nat (currentPage st - 1)). split; [| apply in_seq; lia].
        unfold pageButton. fold tp. rewrite Z2Nat.id by lia.
        destruct (Z.ltb_spec 5 tp); [| exfalso; lia].
        destruct (Z.ltb_spec 3 (currentPage st)); [exfalso; lia |].
        case_ltb; lia.
    + exists (Z.to_nat (currentPage st - 1)). split; [| apply in_seq; lia].
      unfold pageButton. fold tp. rewrite Z2Nat.id by lia.
      destruct (Z.ltb_spec 5 tp); [exfalso; lia |].
      case_ltb; lia.
Qed.

Definition twinFirst : RowObject :=
  mkRow 0 {[ "name" := VStr "ann"; "age" := VNum 30 ]}.

Definition twinSecond : RowObject :=
  mkRow 1 {[ "name" := VStr "ann"; "age" := VNum 30 ]}.

Definition twinRows : list RowObject := [twinFirst; twinSecond].

(** Editing the second of two rows with equal cells. *)
Definition twinState : State :=
  mkState ["name"; "age"] 1 "" (Some (1%nat, "age")) "31" twinRows.

End Extras.

(** A stand-in for the runtime's number-to-text conversion. *)
Definition plainNumber (n : float) : string := "0".

Lemma twinRows_distinct : NoDup (oid <$> twinRows).
Proof. apply (bool_decide_unpack _). vm_compute. exact I. Qed.

Lemma saveEdit_frame_witness :
  editingCell twinState = Some (1%nat, "age")
  /\ currentData plainNumber nativeText twinState !! 1%nat
     = Some twinSecond
  /\ exists (g : nat) (target row' : RowObject),
       localData twinState !! g = Some target
       /\ oid target = oid twinSecond
       /\ localData (saveEdit plainNumber nativeText twinState).1 !! g = Some row'
       /\ length (localData (saveEdit plainNumber nativeText twinState).1)
          = length (localData twinState)
       /\ (forall j : nat, j <> g ->
             localData (saveEdit plainNumber nativeText twinState).1 !! j
             = localData twinState !! j)
       /\ (forall k : string, k <> "age" ->
             fields row' !! k = fields target !! k)
       /\ (forall r : RowObject, r ∈ localData twinState -> oid r <> oid row')
       /\ editingCell (saveEdit plainNumber nativeText twinState).1 = None
       /\ (columns (saveEdit plainNumber nativeText twinState).1,
           currentPage (saveEdit plainNumber nativeText twinState).1,
           searchTerm (saveEdit plainNumber nativeText twinState).1,
           editValue (saveEdit plainNumber nativeText twinState).1)
          = (columns twinState, currentPage twinState, searchTerm twinState,
             editValue twinState).
Proof.
  split; [reflexivity |]. split; [reflexivity |].
  apply (saveEdit_frame plainNumber nativeText twinState 1 "age"
           twinSecond);
    reflexivity.
Defined.

Lemma saveEdit_targets_clicked_row_witness :
  NoDup (oid <$> localData twinState)
  /\ exists g : nat,
       localData twinState !! g
       = Some twinSecond
       /\ (forall j : nat,
             localData twinState !! j
             = Some twinSecond ->
             j = g)
       /\ (fields <$> localData (saveEdit plainNumber nativeText twinState).1 !! g)
          = Some (<["age" := finalValue (fields twinSecond !! "age")
                                (editValue twinState)]> (fields twinSecond))
       /\ (forall j : nat, j <> g ->
             localData (saveEdit plainNumber nativeText twinState).1 !! j
             = localData twinState !! j)
       /\ NoDup (oid <$> localData (saveEdit plainNumber nativeText twinState).1).
Proof.
  split; [exact twinRows_distinct |].
  apply (saveEdit_targets_clicked_row plainNumber nativeText twinState 1 "age"
           twinSecond);
    [exact twinRows_distinct | reflexivity | reflexivity].
Defined.

(** The second of the twin rows is the one that changes. *)
Example saveEdit_twin_rows :
  (fun r => fields r !! "age") <$> localData (saveEdit plainNumber nativeText twinState).1
  = [Some (VNum 30); Some (VNum 31)].
Proof. vm_compute. reflexivity. Qed.

Lemma pages_cover_filtered_rows_witness :
  filteredData plainNumber nativeText twinState !! 1%nat
  = Some twinSecond
  /\ 1 <= Z.of_nat 1 / ROWS_PER_PAGE + 1 <= totalPages plainNumber nativeText twinState
  /\ currentPage (handlePageChange plainNumber nativeText twinState
                    (Z.of_nat 1 / ROWS_PER_PAGE + 1))
     = Z.of_nat 1 / ROWS_PER_PAGE + 1
  /\ currentData plainNumber nativeText
       (handlePageChange plainNumber nativeText twinState (Z.of_nat 1 / ROWS_PER_PAGE + 1))
       !! (1 mod 10)%nat
     = Some twinSecond
  /\ (length (currentData plainNumber nativeText
                (handlePageChange plainNumber nativeText twinState
                   (Z.of_nat 1 / ROWS_PER_PAGE + 1))) <= 10)%nat.
Proof.
  split; [reflexivity |].
  apply (pages_cover_filtered_rows plainNumber nativeText twinState 1
           twinSecond).
  reflexivity.
Defined.

Definition nullRow : RowObject :=
  mkRow 0 {[ "name" := VStr "bob"; "note" := VNull; "ok" := VBool true ]}.

(** The columns are those of a dataset whose other rows hold [constructor]. *)
Definition idleState : State :=
  mkState ["name"; "note"; "ok"; "constructor"] 1 "" None "" [nullRow].

Lemma click_then_commit_witness :
  NoDup (oid <$> localData idleState)
  /\ currentData plainNumber nativeText idleState !! 0%nat = Some nullRow
  /\ editingCell idleState <> Some (0%nat, "note")
  /\ exists g : nat,
       localData idleState !! g = Some nullRow
       /\ localData
            (saveEdit plainNumber nativeText
               (clickCell plainNumber nativeText idleState 0 "note")).1
            !! g ≫= (fun r => fields r !! "note")
          = Some (reopened plainNumber nativeText (get (fields nullRow) "note"))
       /\ (forall k : string, k <> "note" ->
             localData
               (saveEdit plainNumber nativeText
                  (clickCell plainNumber nativeText idleState 0 "note")).1
               !! g ≫= (fun r => fields r !! k)
             = fields nullRow !! k).
Proof.
  assert (Hnd : NoDup (oid <$> localData idleState))
    by (apply (bool_decide_unpack _); vm_compute; exact I).
  split; [exact Hnd |]. split; [reflexivity |]. split; [discriminate |].
  apply (click_then_commit plainNumber nativeText idleState 0 "note" nullRow);
    [exact Hnd | reflexivity | discriminate].
Defined.

(** The null cell of that row becomes the text "null". *)
Example click_then_commit_null :
  localData
    (saveEdit plainNumber nativeText
       (clickCell plainNumber nativeText idleState 0 "note")).1
    !! 0%nat ≫= (fun r => fields r !! "note")
  = Some (VStr "null").
Proof. vm_compute. reflexivity. Qed.

(** The row holds no cell [constructor]: the click reads the inherited
    function, and the commit stores its text. *)
Example click_then_commit_inherited :
  get (fields nullRow) "constructor" = Inherited "constructor"
  /\ localData
       (saveEdit plainNumber nativeText
          (clickCell plainNumber nativeText idleState 0 "constructor")).1
       !! 0%nat ≫= (fun r => fields r !! "constructor")
     = Some (VStr "function Object() { [native code] }").
Proof. split; vm_compute; reflexivity. Qed.

(** A row without a cell [constructor] is found by a search for a word of
    the inherited function's text, and not by a search for [undefined]. *)
Example search_reads_inherited_member :
  filteredData plainNumber nativeText (changeSearch idleState "native")
  = [nullRow]
  /\ filteredData plainNumber nativeText (changeSearch idleState "undef") = [].
Proof. split; vm_compute; reflexivity. Qed.

End EditorExtras.
